(** * Serverless user API: the Lambda handler of [lambda.py]

    A shallow embedding of [lambda_handler] and of the two collaborators it
    calls: Python's [json] module and the DynamoDB table reached through
    boto3.  The handler is translated statement by statement; Python
    exceptions are an explicit result type, the table is explicit state. *)

From Stdlib Require Import ZArith NArith String Ascii List DecimalString Lia.
From stdpp Require Import gmap list.
Import ListNotations.

Set Warnings "-register-all".

Local Open Scope N_scope.

(** ** Python strings

    A Python [str] is a sequence of Unicode code points; a code point is an
    [N].  [lit] turns a Rocq string literal into the [str] with the same
    characters, so that [lit "POST"] stands for the Python literal 'POST'. *)

Abbreviation str := (list N).

Definition ord (a : ascii) : N := N_of_ascii a.

Definition lit (s : string) : str := map ord (list_ascii_of_string s).

(** The double quote character. *)
Definition dquote : N := 34.

Definition str_eqb (a b : str) : bool := bool_decide (a = b).

(** [sep.join(parts)] *)
Fixpoint join (sep : str) (parts : list str) : str :=
  match parts with
  | [] => []
  | [p] => p
  | p :: rest => p ++ sep ++ join sep rest
  end.

Definition hex_digit (d : N) : N :=
  if d <? 10 then ord "0" + d else ord "a" + (d - 10).

(** The [n] low hexadecimal digits of [c], most significant first. *)
Fixpoint hex (n : nat) (c : N) : str :=
  match n with
  | O => []
  | S n' => hex n' (c / 16) ++ [hex_digit (c mod 16)]
  end.

(** [str(z)] for an [int]. *)
Definition str_of_int (z : Z) : str := lit (NilZero.string_of_int (Z.to_int z)).

(** ** Python values

    The values that reach the handler: what [json] decoding produces, plus
    [Decimal], which boto3 returns for a DynamoDB number.  A [dict] keeps
    its insertion order, as in Python; its keys are always [str] here.  A
    [float] is kept as the numeral it was read from: the handler never
    computes with one. *)

Inductive value : Type :=
| VNone
| VBool (b : bool)
| VInt (z : Z)
| VFloat (numeral : str)
| VStr (s : str)
| VList (items : list value)
| VDict (entries : list (str * value))
| VDecimal (z : Z).

(** [type(v).__name__] *)
Definition type_name (v : value) : str :=
  match v with
  | VNone => lit "NoneType"
  | VBool _ => lit "bool"
  | VInt _ => lit "int"
  | VFloat _ => lit "float"
  | VStr _ => lit "str"
  | VList _ => lit "list"
  | VDict _ => lit "dict"
  | VDecimal _ => lit "Decimal"
  end.

(** Lookup in the entries of a [dict]. *)
Fixpoint dict_get (entries : list (str * value)) (key : str) : option value :=
  match entries with
  | [] => None
  | (k, v) :: rest => if str_eqb k key then Some v else dict_get rest key
  end.

(** [d[key] = v] on the entries of a [dict]: an existing key keeps its
    place, a new one goes last. *)
Fixpoint dict_set (entries : list (str * value)) (key : str) (v : value)
  : list (str * value) :=
  match entries with
  | [] => [(key, v)]
  | (k, w) :: rest =>
      if str_eqb k key then (k, v) :: rest else (k, w) :: dict_set rest key v
  end.

(** [v == 'literal']: only a [str] with the same characters is equal to
    a [str]. *)
Definition eq_str (v : value) (s : str) : bool :=
  match v with
  | VStr t => str_eqb t s
  | _ => false
  end.

(** ** [repr] and [str]

    The code points [str.isprintable] refuses, as ranges with both ends
    in: those of the categories Cc, Cf, Cs, Co, Cn, Zl, Zp and Zs other
    than the space, in the Unicode database of CPython 3.11 (Unicode
    14.0.0). *)
Definition nonprintable : list (N * N) :=
  [(0, 31); (127, 160); (173, 173); (888, 889); (896, 899); (907, 907); (909, 909); (930, 930);
   (1328, 1328); (1367, 1368); (1419, 1420); (1424, 1424); (1480, 1487); (1515, 1518);
   (1525, 1541); (1564, 1564); (1757, 1757); (1806, 1807); (1867, 1868); (1970, 1983);
   (2043, 2044); (2094, 2095); (2111, 2111); (2140, 2141); (2143, 2143); (2155, 2159);
   (2191, 2199); (2274, 2274); (2436, 2436); (2445, 2446); (2449, 2450); (2473, 2473);
   (2481, 2481); (2483, 2485); (2490, 2491); (2501, 2502); (2505, 2506); (2511, 2518);
   (2520, 2523); (2526, 2526); (2532, 2533); (2559, 2560); (2564, 2564); (2571, 2574);
   (2577, 2578); (2601, 2601); (2609, 2609); (2612, 2612); (2615, 2615); (2618, 2619);
   (2621, 2621); (2627, 2630); (2633, 2634); (2638, 2640); (2642, 2648); (2653, 2653);
   (2655, 2661); (2679, 2688); (2692, 2692); (2702, 2702); (2706, 2706); (2729, 2729);
   (2737, 2737); (2740, 2740); (2746, 2747); (2758, 2758); (2762, 2762); (2766, 2767);
   (2769, 2783); (2788, 2789); (2802, 2808); (2816, 2816); (2820, 2820); (2829, 2830);
   (2833, 2834); (2857, 2857); (2865, 2865); (2868, 2868); (2874, 2875); (2885, 2886);
   (2889, 2890); (2894, 2900); (2904, 2907); (2910, 2910); (2916, 2917); (2936, 2945);
   (2948, 2948); (2955, 2957); (2961, 2961); (2966, 2968); (2971, 2971); (2973, 2973);
   (2976, 2978); (2981, 2983); (2987, 2989); (3002, 3005); (3011, 3013); (3017, 3017);
   (3022, 3023); (3025, 3030); (3032, 3045); (3067, 3071); (3085, 3085); (3089, 3089);
   (3113, 3113); (3130, 3131); (3141, 3141); (3145, 3145); (3150, 3156); (3159, 3159);
   (3163, 3164); (3166, 3167); (3172, 3173); (3184, 3190); (3213, 3213); (3217, 3217);
   (3241, 3241); (3252, 3252); (3258, 3259); (3269, 3269); (3273, 3273); (3278, 3284);
   (3287, 3292); (3295, 3295); (3300, 3301); (3312, 3312); (3315, 3327); (3341, 3341);
   (3345, 3345); (3397, 3397); (3401, 3401); (3408, 3411); (3428, 3429); (3456, 3456);
   (3460, 3460); (3479, 3481); (3506, 3506); (3516, 3516); (3518, 3519); (3527, 3529);
   (3531, 3534); (3541, 3541); (3543, 3543); (3552, 3557); (3568, 3569); (3573, 3584);
   (3643, 3646); (3676, 3712); (3715, 3715); (3717, 3717); (3723, 3723); (3748, 3748);
   (3750, 3750); (3774, 3775); (3781, 3781); (3783, 3783); (3790, 3791); (3802, 3803);
   (3808, 3839); (3912, 3912); (3949, 3952); (3992, 3992); (4029, 4029); (4045, 4045);
   (4059, 4095); (4294, 4294); (4296, 4300); (4302, 4303); (4681, 4681); (4686, 4687);
   (4695, 4695); (4697, 4697); (4702, 4703); (4745, 4745); (4750, 4751); (4785, 4785);
   (4790, 4791); (4799, 4799); (4801, 4801); (4806, 4807); (4823, 4823); (4881, 4881);
   (4886, 4887); (4955, 4956); (4989, 4991); (5018, 5023); (5110, 5111); (5118, 5119);
   (5760, 5760); (5789, 5791); (5881, 5887); (5910, 5918); (5943, 5951); (5972, 5983);
   (5997, 5997); (6001, 6001); (6004, 6015); (6110, 6111); (6122, 6127); (6138, 6143);
   (6158, 6158); (6170, 6175); (6265, 6271); (6315, 6319); (6390, 6399); (6431, 6431);
   (6444, 6447); (6460, 6463); (6465, 6467); (6510, 6511); (6517, 6527); (6572, 6575);
   (6602, 6607); (6619, 6621); (6684, 6685); (6751, 6751); (6781, 6782); (6794, 6799);
   (6810, 6815); (6830, 6831); (6863, 6911); (6989, 6991); (7039, 7039); (7156, 7163);
   (7224, 7226); (7242, 7244); (7305, 7311); (7355, 7356); (7368, 7375); (7419, 7423);
   (7958, 7959); (7966, 7967); (8006, 8007); (8014, 8015); (8024, 8024); (8026, 8026);
   (8028, 8028); (8030, 8030); (8062, 8063); (8117, 8117); (8133, 8133); (8148, 8149);
   (8156, 8156); (8176, 8177); (8181, 8181); (8191, 8207); (8232, 8239); (8287, 8303);
   (8306, 8307); (8335, 8335); (8349, 8351); (8385, 8399); (8433, 8447); (8588, 8591);
   (9255, 9279); (9291, 9311); (11124, 11125); (11158, 11158); (11508, 11512); (11558, 11558);
   (11560, 11564); (11566, 11567); (11624, 11630); (11633, 11646); (11671, 11679);
   (11687, 11687); (11695, 11695); (11703, 11703); (11711, 11711); (11719, 11719);
   (11727, 11727); (11735, 11735); (11743, 11743); (11870, 11903); (11930, 11930);
   (12020, 12031); (12246, 12271); (12284, 12288); (12352, 12352); (12439, 12440);
   (12544, 12548); (12592, 12592); (12687, 12687); (12772, 12783); (12831, 12831);
   (42125, 42127); (42183, 42191); (42540, 42559); (42744, 42751); (42955, 42959);
   (42962, 42962); (42964, 42964); (42970, 42993); (43053, 43055); (43066, 43071);
   (43128, 43135); (43206, 43213); (43226, 43231); (43348, 43358); (43389, 43391);
   (43470, 43470); (43482, 43485); (43519, 43519); (43575, 43583); (43598, 43599);
   (43610, 43611); (43715, 43738); (43767, 43776); (43783, 43784); (43791, 43792);
   (43799, 43807); (43815, 43815); (43823, 43823); (43884, 43887); (44014, 44015);
   (44026, 44031); (55204, 55215); (55239, 55242); (55292, 63743); (64110, 64111);
   (64218, 64255); (64263, 64274); (64280, 64284); (64311, 64311); (64317, 64317);
   (64319, 64319); (64322, 64322); (64325, 64325); (64451, 64466); (64912, 64913);
   (64968, 64974); (64976, 65007); (65050, 65055); (65107, 65107); (65127, 65127);
   (65132, 65135); (65141, 65141); (65277, 65280); (65471, 65473); (65480, 65481);
   (65488, 65489); (65496, 65497); (65501, 65503); (65511, 65511); (65519, 65531);
   (65534, 65535); (65548, 65548); (65575, 65575); (65595, 65595); (65598, 65598);
   (65614, 65615); (65630, 65663); (65787, 65791); (65795, 65798); (65844, 65846);
   (65935, 65935); (65949, 65951); (65953, 65999); (66046, 66175); (66205, 66207);
   (66257, 66271); (66300, 66303); (66340, 66348); (66379, 66383); (66427, 66431);
   (66462, 66462); (66500, 66503); (66518, 66559); (66718, 66719); (66730, 66735);
   (66772, 66775); (66812, 66815); (66856, 66863); (66916, 66926); (66939, 66939);
   (66955, 66955); (66963, 66963); (66966, 66966); (66978, 66978); (66994, 66994);
   (67002, 67002); (67005, 67071); (67383, 67391); (67414, 67423); (67432, 67455);
   (67462, 67462); (67505, 67505); (67515, 67583); (67590, 67591); (67593, 67593);
   (67638, 67638); (67641, 67643); (67645, 67646); (67670, 67670); (67743, 67750);
   (67760, 67807); (67827, 67827); (67830, 67834); (67868, 67870); (67898, 67902);
   (67904, 67967); (68024, 68027); (68048, 68049); (68100, 68100); (68103, 68107);
   (68116, 68116); (68120, 68120); (68150, 68151); (68155, 68158); (68169, 68175);
   (68185, 68191); (68256, 68287); (68327, 68330); (68343, 68351); (68406, 68408);
   (68438, 68439); (68467, 68471); (68498, 68504); (68509, 68520); (68528, 68607);
   (68681, 68735); (68787, 68799); (68851, 68857); (68904, 68911); (68922, 69215);
   (69247, 69247); (69290, 69290); (69294, 69295); (69298, 69375); (69416, 69423);
   (69466, 69487); (69514, 69551); (69580, 69599); (69623, 69631); (69710, 69713);
   (69750, 69758); (69821, 69821); (69827, 69839); (69865, 69871); (69882, 69887);
   (69941, 69941); (69960, 69967); (70007, 70015); (70112, 70112); (70133, 70143);
   (70162, 70162); (70207, 70271); (70279, 70279); (70281, 70281); (70286, 70286);
   (70302, 70302); (70314, 70319); (70379, 70383); (70394, 70399); (70404, 70404);
   (70413, 70414); (70417, 70418); (70441, 70441); (70449, 70449); (70452, 70452);
   (70458, 70458); (70469, 70470); (70473, 70474); (70478, 70479); (70481, 70486);
   (70488, 70492); (70500, 70501); (70509, 70511); (70517, 70655); (70748, 70748);
   (70754, 70783); (70856, 70863); (70874, 71039); (71094, 71095); (71134, 71167);
   (71237, 71247); (71258, 71263); (71277, 71295); (71354, 71359); (71370, 71423);
   (71451, 71452); (71468, 71471); (71495, 71679); (71740, 71839); (71923, 71934);
   (71943, 71944); (71946, 71947); (71956, 71956); (71959, 71959); (71990, 71990);
   (71993, 71994); (72007, 72015); (72026, 72095); (72104, 72105); (72152, 72153);
   (72165, 72191); (72264, 72271); (72355, 72367); (72441, 72703); (72713, 72713);
   (72759, 72759); (72774, 72783); (72813, 72815); (72848, 72849); (72872, 72872);
   (72887, 72959); (72967, 72967); (72970, 72970); (73015, 73017); (73019, 73019);
   (73022, 73022); (73032, 73039); (73050, 73055); (73062, 73062); (73065, 73065);
   (73103, 73103); (73106, 73106); (73113, 73119); (73130, 73439); (73465, 73647);
   (73649, 73663); (73714, 73726); (74650, 74751); (74863, 74863); (74869, 74879);
   (75076, 77711); (77811, 77823); (78895, 82943); (83527, 92159); (92729, 92735);
   (92767, 92767); (92778, 92781); (92863, 92863); (92874, 92879); (92910, 92911);
   (92918, 92927); (92998, 93007); (93018, 93018); (93026, 93026); (93048, 93052);
   (93072, 93759); (93851, 93951); (94027, 94030); (94088, 94094); (94112, 94175);
   (94181, 94191); (94194, 94207); (100344, 100351); (101590, 101631); (101641, 110575);
   (110580, 110580); (110588, 110588); (110591, 110591); (110883, 110927); (110931, 110947);
   (110952, 110959); (111356, 113663); (113771, 113775); (113789, 113791); (113801, 113807);
   (113818, 113819); (113824, 118527); (118574, 118575); (118599, 118607); (118724, 118783);
   (119030, 119039); (119079, 119080); (119155, 119162); (119275, 119295); (119366, 119519);
   (119540, 119551); (119639, 119647); (119673, 119807); (119893, 119893); (119965, 119965);
   (119968, 119969); (119971, 119972); (119975, 119976); (119981, 119981); (119994, 119994);
   (119996, 119996); (120004, 120004); (120070, 120070); (120075, 120076); (120085, 120085);
   (120093, 120093); (120122, 120122); (120127, 120127); (120133, 120133); (120135, 120137);
   (120145, 120145); (120486, 120487); (120780, 120781); (121484, 121498); (121504, 121504);
   (121520, 122623); (122655, 122879); (122887, 122887); (122905, 122906); (122914, 122914);
   (122917, 122917); (122923, 123135); (123181, 123183); (123198, 123199); (123210, 123213);
   (123216, 123535); (123567, 123583); (123642, 123646); (123648, 124895); (124903, 124903);
   (124908, 124908); (124911, 124911); (124927, 124927); (125125, 125126); (125143, 125183);
   (125260, 125263); (125274, 125277); (125280, 126064); (126133, 126208); (126270, 126463);
   (126468, 126468); (126496, 126496); (126499, 126499); (126501, 126502); (126504, 126504);
   (126515, 126515); (126520, 126520); (126522, 126522); (126524, 126529); (126531, 126534);
   (126536, 126536); (126538, 126538); (126540, 126540); (126544, 126544); (126547, 126547);
   (126549, 126550); (126552, 126552); (126554, 126554); (126556, 126556); (126558, 126558);
   (126560, 126560); (126563, 126563); (126565, 126566); (126571, 126571); (126579, 126579);
   (126584, 126584); (126589, 126589); (126591, 126591); (126602, 126602); (126620, 126624);
   (126628, 126628); (126634, 126634); (126652, 126703); (126706, 126975); (127020, 127023);
   (127124, 127135); (127151, 127152); (127168, 127168); (127184, 127184); (127222, 127231);
   (127406, 127461); (127491, 127503); (127548, 127551); (127561, 127567); (127570, 127583);
   (127590, 127743); (128728, 128732); (128749, 128751); (128765, 128767); (128884, 128895);
   (128985, 128991); (129004, 129007); (129009, 129023); (129036, 129039); (129096, 129103);
   (129114, 129119); (129160, 129167); (129198, 129199); (129202, 129279); (129620, 129631);
   (129646, 129647); (129653, 129655); (129661, 129663); (129671, 129679); (129709, 129711);
   (129723, 129727); (129734, 129743); (129754, 129759); (129768, 129775); (129783, 129791);
   (129939, 129939); (129995, 130031); (130042, 131071); (173792, 173823); (177977, 177983);
   (178206, 178207); (183970, 183983); (191457, 194559); (195102, 196607); (201547, 917759);
   (918000, 1114111)].

(** [str.isprintable] of one character. *)
Definition isprintable (c : N) : bool :=
  negb (existsb (fun range => (range.1 <=? c) && (c <=? range.2)) nonprintable).

Definition repr_char (quote : N) (c : N) : str :=
  if (c =? quote) || (c =? ord "\") then [ord "\"; c]
  else if c =? 9 then lit "\t"
  else if c =? 10 then lit "\n"
  else if c =? 13 then lit "\r"
  else if isprintable c then [c]
  else if c <? 256 then lit "\x" ++ hex 2 c
  else if c <? 65536 then lit "\u" ++ hex 4 c
  else lit "\U" ++ hex 8 c.

Definition mem (c : N) (s : str) : bool := existsb (N.eqb c) s.

(** [repr(s)] for a [str]: single quotes unless the text has a single
    quote and no double quote. *)
Definition repr_str (s : str) : str :=
  let quote :=
    if mem (ord "'") s && negb (mem dquote s) then dquote else ord "'" in
  [quote] ++ concat (map (repr_char quote) s) ++ [quote].

Fixpoint repr (v : value) : str :=
  match v with
  | VNone => lit "None"
  | VBool true => lit "True"
  | VBool false => lit "False"
  | VInt z => str_of_int z
  | VFloat numeral => numeral
  | VStr s => repr_str s
  | VList items => lit "[" ++ join (lit ", ") (map repr items) ++ lit "]"
  | VDict entries =>
      lit "{" ++
      join (lit ", ")
           (map (fun kv => repr_str (fst kv) ++ lit ": " ++ repr (snd kv)) entries)
      ++ lit "}"
  | VDecimal z => lit "Decimal('" ++ str_of_int z ++ lit "')"
  end.

(** [str(v)], which is also what [{v}] gives inside an f-string. *)
Definition py_str (v : value) : str :=
  match v with
  | VStr s => s
  | VDecimal z => str_of_int z
  | _ => repr v
  end.

(** ** Exceptions

    Every exception the handler can meet.  All of them derive from
    [Exception], so an [except Exception] clause catches each one. *)

Inductive exn : Type :=
| KeyError (key : value)
| TypeError (msg : str)
| ValueError (msg : str)
| RecursionError (msg : str)
| JSONDecodeError (msg : str) (doc : str) (pos : nat)
| DecimalException (signals : list str)
| ClientError (code message operation : str)
| BotoCoreError (msg : str)
| UnicodeEncodeError (encoding object : str) (start stop : nat) (reason : str).

Definition str_of_nat (n : nat) : str := str_of_int (Z.of_nat n).

(** Line and column (both from 1) of position [pos] of [doc]. *)
Fixpoint line_col (doc : str) (pos : nat) (line col : nat) : nat * nat :=
  match pos, doc with
  | S p, c :: rest =>
      if c =? 10 then line_col rest p (S line) 1%nat
      else line_col rest p line (S col)
  | _, _ => (line, col)
  end.

(** The text [json.JSONDecodeError] builds from the document and the
    position of the error. *)
Definition decode_errmsg (msg doc : str) (pos : nat) : str :=
  let (lineno, colno) := line_col doc pos 1%nat 1%nat in
  msg ++ lit ": line " ++ str_of_nat lineno ++ lit " column " ++ str_of_nat colno
      ++ lit " (char " ++ str_of_nat pos ++ lit ")".

(** [str(e)] *)
Definition str_exn (e : exn) : str :=
  match e with
  | KeyError key => repr key
  | TypeError msg | ValueError msg | RecursionError msg | BotoCoreError msg => msg
  | JSONDecodeError msg doc pos => decode_errmsg msg doc pos
  | DecimalException signals =>
      lit "[" ++ join (lit ", ")
        (map (fun s => lit "<class 'decimal." ++ s ++ lit "'>") signals) ++ lit "]"
  | ClientError code message operation =>
      lit "An error occurred (" ++ code ++ lit ") when calling the " ++ operation
          ++ lit " operation: " ++ message
  | UnicodeEncodeError encoding object start stop reason =>
      let several :=
        lit "'" ++ encoding ++ lit "' codec can't encode characters in position "
          ++ str_of_nat start ++ lit "-" ++ str_of_nat (stop - 1) ++ lit ": " ++ reason in
      match object !! start with
      | Some c =>
          if Nat.eqb stop (S start) then
            lit "'" ++ encoding ++ lit "' codec can't encode character '"
              ++ (if c <? 256 then lit "\x" ++ hex 2 c
                  else if c <? 65536 then lit "\u" ++ hex 4 c
                  else lit "\U" ++ hex 8 c)
              ++ lit "' in position " ++ str_of_nat start ++ lit ": " ++ reason
          else several
      | None => several
      end
  end.

(** The outcome of evaluating a Python expression: a value, or an
    exception on its way up. *)
Inductive result (A : Type) : Type :=
| Ok (a : A)
| Raise (e : exn).
Arguments Ok {A} a.
Arguments Raise {A} e.

Definition rbind {A B} (r : result A) (k : A -> result B) : result B :=
  match r with
  | Ok a => k a
  | Raise e => Raise e
  end.

(** [f] on each element in turn, up to the first exception. *)
Definition traverse {A B} (f : A -> result B) : list A -> result (list B) :=
  fix go (l : list A) : result (list B) :=
    match l with
    | [] => Ok []
    | x :: rest => rbind (f x) (fun y => rbind (go rest) (fun ys => Ok (y :: ys)))
    end.

(** [v[key]] for a [str] key. *)
Definition getitem (v : value) (key : str) : result value :=
  match v with
  | VDict entries =>
      match dict_get entries key with
      | Some x => Ok x
      | None => Raise (KeyError (VStr key))
      end
  | VList _ => Raise (TypeError (lit "list indices must be integers or slices, not str"))
  | VStr _ => Raise (TypeError (lit "string indices must be integers, not 'str'"))
  | VDecimal _ => Raise (TypeError (lit "'decimal.Decimal' object is not subscriptable"))
  | _ => Raise (TypeError (lit "'" ++ type_name v ++ lit "' object is not subscriptable"))
  end.

(** [key in v] for a [dict] [v]. *)
Definition contains (v : value) (key : str) : bool :=
  match v with
  | VDict entries => bool_decide (is_Some (dict_get entries key))
  | _ => false
  end.

(** ** [print]

    [sys.stdout] encodes what it is given in UTF-8, strictly (the
    locale of the Lambda runtime is a UTF-8 one), and refuses what has
    no encoding: the surrogates. *)

Definition is_surrogate (c : N) : bool := (55296 <=? c) && (c <=? 57343).

(** The length of the run of surrogates [s] starts with. *)
Fixpoint surrogate_run (s : str) : nat :=
  match s with
  | c :: rest => if is_surrogate c then S (surrogate_run rest) else O
  | [] => O
  end.

(** The first run of surrogates of [s], whose first character is at
    [pos]: where it starts and where it stops. *)
Fixpoint first_surrogates (s : str) (pos : nat) : option (nat * nat) :=
  match s with
  | [] => None
  | c :: rest =>
      if is_surrogate c then Some (pos, Nat.add pos (surrogate_run s))
      else first_surrogates rest (S pos)
  end.

(** [sys.stdout.write(text)] *)
Definition write (text : str) : result unit :=
  match first_surrogates text O with
  | Some (start, stop) =>
      Raise (UnicodeEncodeError (lit "utf-8") text start stop (lit "surrogates not allowed"))
  | None => Ok tt
  end.

(** [print] of some arguments: the text of each is written in turn. *)
Definition print (args : list value) : result unit :=
  rbind (traverse (fun arg => write (py_str arg)) args) (fun _ => Ok tt).

(** ** The [json] module

    [json.dumps] with its default options ([ensure_ascii], separators
    [", "] and [": "]) and [json.loads] with the default decoder, as the
    C accelerator of CPython 3.11 implements them. *)

Module json.

(** One character of a [str] in the output of [dumps]. *)
Definition escape_char (c : N) : str :=
  if c =? dquote then [ord "\"; dquote]
  else if c =? ord "\" then lit "\\"
  else if c =? 10 then lit "\n"
  else if c =? 13 then lit "\r"
  else if c =? 9 then lit "\t"
  else if c =? 8 then lit "\b"
  else if c =? 12 then lit "\f"
  else if (32 <=? c) && (c <=? 126) then [c]
  else if c <? 65536 then lit "\u" ++ hex 4 c
  else
    let v := c - 65536 in
    lit "\u" ++ hex 4 (55296 + v / 1024) ++ lit "\u" ++ hex 4 (56320 + v mod 1024).

Definition encode_basestring_ascii (s : str) : str :=
  [dquote] ++ concat (map escape_char s) ++ [dquote].

(** [json.dumps(v)].  The recursion limit of the interpreter, which the
    encoder reaches on a value nested very deep, is not modelled. *)
Fixpoint dumps (v : value) : result str :=
  match v with
  | VNone => Ok (lit "null")
  | VBool true => Ok (lit "true")
  | VBool false => Ok (lit "false")
  | VInt z => Ok (str_of_int z)
  | VFloat numeral => Ok numeral
  | VStr s => Ok (encode_basestring_ascii s)
  | VList items =>
      rbind (traverse dumps items)
            (fun parts => Ok (lit "[" ++ join (lit ", ") parts ++ lit "]"))
  | VDict entries =>
      rbind (traverse
               (fun kv =>
                  rbind (dumps (snd kv))
                        (fun text => Ok (encode_basestring_ascii (fst kv) ++ lit ": " ++ text)))
               entries)
            (fun parts => Ok (lit "{" ++ join (lit ", ") parts ++ lit "}"))
  | VDecimal _ => Raise (TypeError (lit "Object of type Decimal is not JSON serializable"))
  end.

(** *** Decoding

    The scanners read a suffix of the document.  [Stop msg at_] is a
    decoding error at the position where the suffix [at_] starts. *)

Inductive scan (A : Type) : Type :=
| Scanned (a : A) (rest : str)
| Stop (msg : str) (at_ : str)
| Abort (e : exn).
Arguments Scanned {A} a rest.
Arguments Stop {A} msg at_.
Arguments Abort {A} e.

Definition is_whitespace (c : N) : bool :=
  (c =? 32) || (c =? 9) || (c =? 10) || (c =? 13).

Fixpoint skip_whitespace (s : str) : str :=
  match s with
  | c :: rest => if is_whitespace c then skip_whitespace rest else s
  | [] => []
  end.

Definition is_digit (c : N) : bool := (48 <=? c) && (c <=? 57).

Definition hex_value (c : N) : option N :=
  if is_digit c then Some (c - 48)
  else if (97 <=? c) && (c <=? 102) then Some (c - 87)
  else if (65 <=? c) && (c <=? 70) then Some (c - 55)
  else None.

Definition hex4 (a b c d : N) : option N :=
  match hex_value a, hex_value b, hex_value c, hex_value d with
  | Some x, Some y, Some z, Some w => Some (((x * 16 + y) * 16 + z) * 16 + w)
  | _, _, _, _ => None
  end.

Definition is_high_surrogate (c : N) : bool := (55296 <=? c) && (c <=? 56319).
Definition is_low_surrogate (c : N) : bool := (56320 <=? c) && (c <=? 57343).
Definition join_surrogates (hi lo : N) : N :=
  65536 + (hi - 55296) * 1024 + (lo - 56320).

(** The character a one-letter escape stands for. *)
Definition unescape (c : N) : option N :=
  if (c =? dquote) || (c =? ord "\") || (c =? ord "/") then Some c
  else if c =? ord "b" then Some 8
  else if c =? ord "f" then Some 12
  else if c =? ord "n" then Some 10
  else if c =? ord "r" then Some 13
  else if c =? ord "t" then Some 9
  else None.

Definition push (c : N) (r : scan str) : scan str :=
  match r with
  | Scanned s rest => Scanned (c :: s) rest
  | _ => r
  end.

(** The part of [scanstring] that reads a [\uXXXX] escape; [at_u] starts
    at the [u] and [k] scans what follows the escape.  Four hexadecimal
    digits and one more character must follow the [u]; the first half of
    a surrogate pair takes the second half with it when it comes next. *)
Definition scan_unicode_escape (k : str -> scan str) (at_u : str) : scan str :=
  match at_u with
  | _ :: h1 :: h2 :: h3 :: h4 :: ((_ :: _) as r2) =>
      match hex4 h1 h2 h3 h4 with
      | None => Stop (lit "Invalid \uXXXX escape") at_u
      | Some c1 =>
          match r2 with
          | b :: ((u2 :: g1 :: g2 :: g3 :: g4 :: ((_ :: _) as r3)) as at_u2) =>
              if is_high_surrogate c1 && (b =? ord "\") && (u2 =? ord "u") then
                match hex4 g1 g2 g3 g4 with
                | None => Stop (lit "Invalid \uXXXX escape") at_u2
                | Some c2 =>
                    if is_low_surrogate c2
                    then push (join_surrogates c1 c2) (k r3)
                    else push c1 (k r2)
                end
              else push c1 (k r2)
          | _ => push c1 (k r2)
          end
      end
  | _ => Stop (lit "Invalid \uXXXX escape") at_u
  end.

(** [scanstring]: the text of a string literal; [begin] starts at its
    opening quote and [s] right after it. *)
Fixpoint scanstring (begin s : str) {struct s} : scan str :=
  match s with
  | [] => Stop (lit "Unterminated string starting at") begin
  | c :: r =>
      if c =? dquote then Scanned [] r
      else if c =? ord "\" then
        match r with
        | [] => Stop (lit "Unterminated string starting at") begin
        | e :: r1 =>
            if e =? ord "u" then scan_unicode_escape (scanstring begin) r
            else
              match unescape e with
              | Some c' => push c' (scanstring begin r1)
              | None => Stop (lit "Invalid \escape") s
              end
        end
      else if c <=? 31 then Stop (lit "Invalid control character at") s
      else push c (scanstring begin r)
  end.

(** The longest run of digits at the head of [s], and what follows. *)
Fixpoint span_digits (s : str) : str * str :=
  match s with
  | c :: rest =>
      if is_digit c then let (ds, r) := span_digits rest in (c :: ds, r)
      else ([], s)
  | [] => ([], [])
  end.

Definition int_of_digits (ds : str) : Z :=
  fold_left (fun acc c => (acc * 10 + Z.of_N (c - 48))%Z) ds 0%Z.

(** [sys.get_int_max_str_digits()] *)
Definition int_max_str_digits : nat := 4300.

(** The fraction [.digits] at the head of [s], when there is one. *)
Definition match_frac (s : str) : str * str :=
  match s with
  | dot :: ((d :: _) as after) =>
      if (dot =? ord ".") && is_digit d
      then let (ds, r) := span_digits after in (dot :: ds, r)
      else ([], s)
  | _ => ([], s)
  end.

(** The exponent [e], optional sign, digits at the head of [s], when
    there is one. *)
Definition match_exp (s : str) : str * str :=
  match s with
  | e :: after =>
      if (e =? ord "e") || (e =? ord "E") then
        match after with
        | sign :: after_sign =>
            if (sign =? ord "-") || (sign =? ord "+") then
              match span_digits after_sign with
              | ([], _) => ([], s)
              | (ds, r) => (e :: sign :: ds, r)
              end
            else
              match span_digits after with
              | ([], _) => ([], s)
              | (ds, r) => (e :: ds, r)
              end
        | [] => ([], s)
        end
      else ([], s)
  | [] => ([], s)
  end.

(** [_match_number]: a JSON number at the head of [s]; [None] when there
    is no number there. *)
Definition match_number (s : str) : option (scan value) :=
  let (negative, s1) :=
    match s with
    | c :: rest => if c =? ord "-" then (true, rest) else (false, s)
    | [] => (false, s)
    end in
  match s1 with
  | c :: rest =>
      let integer :=
        if (49 <=? c) && (c <=? 57)
        then let (ds, r) := span_digits rest in Some (c :: ds, r)
        else if c =? 48 then Some ([c], rest)
        else None in
      match integer with
      | None => None
      | Some (ds, r) =>
          let (frac, r1) := match_frac r in
          let (exp, r2) := match_exp r1 in
          let sign := if negative then [ord "-"] else [] in
          match frac ++ exp with
          | [] =>
              if Nat.ltb int_max_str_digits (length ds)
              then Some (Abort (ValueError
                     (lit "Exceeds the limit (4300 digits) for integer string conversion: value has "
                      ++ str_of_nat (length ds)
                      ++ lit " digits; use sys.set_int_max_str_digits() to increase the limit")))
              else
                let n := int_of_digits ds in
                Some (Scanned (VInt (if negative then - n else n)%Z) r2)
          | _ => Some (Scanned (VFloat (sign ++ ds ++ frac ++ exp)) r2)
          end
      end
  | [] => None
  end.

(** [s] with the prefix [prefix] removed, when it starts with it. *)
Fixpoint strip_prefix (prefix s : str) : option str :=
  match prefix, s with
  | [], _ => Some s
  | p :: prefix', c :: s' => if p =? c then strip_prefix prefix' s' else None
  | _ :: _, [] => None
  end.

(** The constants and numbers of [scan_once]. *)
Definition scan_atom (s : str) : scan value :=
  let constants :=
    [ (lit "null", VNone); (lit "true", VBool true); (lit "false", VBool false);
      (lit "NaN", VFloat (lit "NaN")); (lit "Infinity", VFloat (lit "Infinity"));
      (lit "-Infinity", VFloat (lit "-Infinity")) ] in
  let matched :=
    fold_right
      (fun '(name, v) other =>
         match strip_prefix name s with
         | Some rest => Some (Scanned v rest)
         | None => other
         end)
      (match_number s) constants in
  match matched with
  | Some r => r
  | None => Stop (lit "Expecting value") s
  end.

(** [scan_once], with the array and object loops it calls.
    [parse_array] and [parse_object] start at the first character of an
    element, resp. of a key.  [fuel] bounds the recursion; running out
    of it is the [RecursionError] CPython raises on a nesting too deep
    (the interpreter's own limit is not modelled: [decode] gives fuel by
    the length of the document). *)
Fixpoint scan_once (fuel : nat) (s : str) {struct fuel} : scan value :=
  match fuel with
  | O => Abort (RecursionError (lit "maximum recursion depth exceeded"))
  | S fuel' =>
      match s with
      | [] => Stop (lit "Expecting value") s
      | c :: r =>
          if c =? dquote then
            match scanstring s r with
            | Scanned text rest => Scanned (VStr text) rest
            | Stop msg at_ => Stop msg at_
            | Abort e => Abort e
            end
          else if c =? ord "{" then
            match skip_whitespace r with
            | (c' :: r') as body =>
                if c' =? ord "}" then Scanned (VDict []) r'
                else parse_object fuel' [] body
            | [] => parse_object fuel' [] []
            end
          else if c =? ord "[" then
            match skip_whitespace r with
            | (c' :: r') as body =>
                if c' =? ord "]" then Scanned (VList []) r'
                else parse_array fuel' [] body
            | [] => parse_array fuel' [] []
            end
          else scan_atom s
      end
  end

with parse_array (fuel : nat) (acc : list value) (s : str) {struct fuel} : scan value :=
  match fuel with
  | O => Abort (RecursionError (lit "maximum recursion depth exceeded"))
  | S fuel' =>
      match scan_once fuel' s with
      | Scanned v rest =>
          match skip_whitespace rest with
          | (c :: r) as here =>
              if c =? ord "]" then Scanned (VList (acc ++ [v])) r
              else if c =? ord ","
              then parse_array fuel' (acc ++ [v]) (skip_whitespace r)
              else Stop (lit "Expecting ',' delimiter") here
          | [] => Stop (lit "Expecting ',' delimiter") []
          end
      | other => other
      end
  end

with parse_object (fuel : nat) (acc : list (str * value)) (s : str) {struct fuel}
  : scan value :=
  match fuel with
  | O => Abort (RecursionError (lit "maximum recursion depth exceeded"))
  | S fuel' =>
      match s with
      | c :: r =>
          if c =? dquote then
            match scanstring s r with
            | Scanned key rest =>
                match skip_whitespace rest with
                | (colon :: r1) as here =>
                    if colon =? ord ":" then
                      match scan_once fuel' (skip_whitespace r1) with
                      | Scanned v rest' =>
                          match skip_whitespace rest' with
                          | (c' :: r2) as here' =>
                              if c' =? ord "}"
                              then Scanned (VDict (dict_set acc key v)) r2
                              else if c' =? ord ","
                              then parse_object fuel' (dict_set acc key v) (skip_whitespace r2)
                              else Stop (lit "Expecting ',' delimiter") here'
                          | [] => Stop (lit "Expecting ',' delimiter") []
                          end
                      | other => other
                      end
                    else Stop (lit "Expecting ':' delimiter") here
                | [] => Stop (lit "Expecting ':' delimiter") []
                end
            | Stop msg at_ => Stop msg at_
            | Abort e => Abort e
            end
          else Stop (lit "Expecting property name enclosed in double quotes") s
      | [] => Stop (lit "Expecting property name enclosed in double quotes") []
      end
  end.

(** [JSONDecoder.decode]: one value, with white space around it. *)
Definition decode (doc : str) : result value :=
  let pos (at_ : str) := (length doc - length at_)%nat in
  match scan_once (2 * length doc + 2) (skip_whitespace doc) with
  | Scanned v rest =>
      match skip_whitespace rest with
      | [] => Ok v
      | extra => Raise (JSONDecodeError (lit "Extra data") doc (pos extra))
      end
  | Stop msg at_ => Raise (JSONDecodeError msg doc (pos at_))
  | Abort e => Raise e
  end.

(** [json.loads(s)] *)
Definition loads (s : value) : result value :=
  match s with
  | VStr doc =>
      match doc with
      | 65279 :: _ =>
          Raise (JSONDecodeError (lit "Unexpected UTF-8 BOM (decode using utf-8-sig)") doc 0)
      | _ => decode doc
      end
  | _ =>
      Raise (TypeError (lit "the JSON object must be str, bytes or bytearray, not "
                        ++ type_name s))
  end.

End json.

(** ** The DynamoDB table

    What [table = dynamodb.Table(table_name)] stands for: boto3's client
    side, which turns Python values into DynamoDB attribute values and
    back, and the service behind it.  The service is an ideal, sequential
    one: a call is answered from the items written before it. *)

Module table.

(** A DynamoDB attribute value, for the types this handler can write. *)
Inductive attr : Type :=
| AttrS (s : str)
| AttrN (n : Z)
| AttrBOOL (b : bool)
| AttrNULL
| AttrL (l : list attr)
| AttrM (m : list (str * attr)).

Definition attr_type (a : attr) : str :=
  match a with
  | AttrS _ => lit "S"
  | AttrN _ => lit "N"
  | AttrBOOL _ => lit "BOOL"
  | AttrNULL => lit "NULL"
  | AttrL _ => lit "L"
  | AttrM _ => lit "M"
  end.

(** Modelled from the spec: the key schema of the table, which the
    Terraform configuration declares and which is not among the sources.
    The spec has [UserID], a string, as the one identifying key. *)
Definition key_name : str := lit "UserID".

(** The signals [DYNAMODB_CONTEXT.create_decimal(z)] traps: the context
    has 38 digits of precision and exponents up to 126. *)
Definition decimal_signals (z : Z) : list str :=
  let a := Z.abs z in
  let d := length (str_of_int a) in
  if Nat.leb d 38 then []
  else
    let p := (10 ^ Z.of_nat (d - 38))%Z in
    let q := (a / p)%Z in
    let r := (a mod p)%Z in
    let half := (p / 2)%Z in
    let up := (half <? r)%Z || ((r =? half)%Z && Z.odd q) in
    let q' := if up then (q + 1)%Z else q in
    let adjusted := if (q' =? 10 ^ 38)%Z then d else (d - 1)%nat in
    if Nat.ltb 126 adjusted then [lit "Overflow"; lit "Inexact"; lit "Rounded"]
    else if (r =? 0)%Z then [lit "Rounded"]
    else [lit "Inexact"; lit "Rounded"].

(** [TypeSerializer.serialize] *)
Fixpoint serialize (v : value) : result attr :=
  match v with
  | VNone => Ok AttrNULL
  | VBool b => Ok (AttrBOOL b)
  | VInt z | VDecimal z =>
      match decimal_signals z with
      | [] => Ok (AttrN z)
      | signals => Raise (DecimalException signals)
      end
  | VFloat _ =>
      Raise (TypeError (lit "Float types are not supported. Use Decimal types instead."))
  | VStr s => Ok (AttrS s)
  | VDict entries =>
      rbind (traverse
               (fun kv => rbind (serialize (snd kv)) (fun a => Ok (fst kv, a)))
               entries)
            (fun m => Ok (AttrM m))
  | VList items => rbind (traverse serialize items) (fun l => Ok (AttrL l))
  end.

(** [TypeDeserializer.deserialize]: a number comes back as a [Decimal]. *)
Fixpoint deserialize (a : attr) : value :=
  match a with
  | AttrS s => VStr s
  | AttrN n => VDecimal n
  | AttrBOOL b => VBool b
  | AttrNULL => VNone
  | AttrL l => VList (map deserialize l)
  | AttrM m => VDict (map (fun kv => (fst kv, deserialize (snd kv))) m)
  end.

(** The attributes of [Item=...] or [Key=...], serialized in order. *)
Definition serialize_attributes (entries : list (str * value))
  : result (list (str * attr)) :=
  traverse (fun kv => rbind (serialize (snd kv)) (fun a => Ok (fst kv, a))) entries.

Fixpoint attr_get (m : list (str * attr)) (name : str) : option attr :=
  match m with
  | [] => None
  | (k, a) :: rest => if str_eqb k name then Some a else attr_get rest name
  end.

Inductive call : Type :=
| PutItem (Item : list (str * value))
| GetItem (Key : list (str * value)).

(** The state behind the handle: the items of the table by key, the
    answers the service will give to the calls to come ([None]: the call
    is served; [Some e]: it is refused with [e], as for throttling, a
    denied permission, an item too large or a lost connection; past the
    end of the list every call is served), and the calls made so far,
    oldest first. *)
Record state : Type := mk_state {
  items : gmap str (list (str * attr));
  outcomes : list (option exn);
  calls : list call
}.

Definition validation (operation message : str) : exn :=
  ClientError (lit "ValidationException") message operation.

Definition empty_key_message : str :=
  lit "One or more parameter values are not valid. The AttributeValue for a key attribute cannot contain an empty string value. Key: " ++ key_name.

(** The key of the item a [PutItem] request carries, as the service
    validates it. *)
Definition item_key (attrs : list (str * attr)) : result str :=
  match attr_get attrs key_name with
  | Some (AttrS []) => Raise (validation (lit "PutItem") empty_key_message)
  | Some (AttrS k) => Ok k
  | Some a =>
      Raise (validation (lit "PutItem")
               (lit "One or more parameter values were invalid: Type mismatch for key "
                ++ key_name ++ lit " expected: S actual: " ++ attr_type a))
  | None =>
      Raise (validation (lit "PutItem")
               (lit "One or more parameter values were invalid: Missing the key "
                ++ key_name ++ lit " in the item"))
  end.

(** The key a [GetItem] request names: the key attribute and nothing
    else. *)
Definition request_key (attrs : list (str * attr)) : result str :=
  match attrs with
  | [(name, AttrS k)] =>
      if str_eqb name key_name then
        match k with
        | [] => Raise (validation (lit "GetItem") empty_key_message)
        | _ => Ok k
        end
      else Raise (validation (lit "GetItem")
                    (lit "The provided key element does not match the schema"))
  | _ => Raise (validation (lit "GetItem")
                  (lit "The provided key element does not match the schema"))
  end.

Definition log (c : call) (st : state) : state :=
  mk_state (items st) (outcomes st) (calls st ++ [c]).

(** The answer of the service to the next request, taken off the list. *)
Definition next_outcome (st : state) : option exn * state :=
  match outcomes st with
  | [] => (None, st)
  | o :: rest => (o, mk_state (items st) rest (calls st))
  end.

Definition response_metadata : str * value := (lit "ResponseMetadata", VDict []).

(** [table.put_item(Item=...)]: the item is serialized, sent, and, when
    the service accepts it, stored under its key in place of whatever was
    there. *)
Definition put_item (Item : list (str * value)) (st : state) : result value * state :=
  let st := log (PutItem Item) st in
  match serialize_attributes Item with
  | Raise e => (Raise e, st)
  | Ok attrs =>
      match next_outcome st with
      | (Some e, st) => (Raise e, st)
      | (None, st) =>
          match item_key attrs with
          | Raise e => (Raise e, st)
          | Ok k =>
              (Ok (VDict [response_metadata]),
               mk_state (<[k := attrs]> (items st)) (outcomes st) (calls st))
          end
      end
  end.

(** [table.get_item(Key=...)]: the response has an [Item] entry exactly
    when the table holds an item under the key. *)
Definition get_item (Key : list (str * value)) (st : state) : result value * state :=
  let st := log (GetItem Key) st in
  match serialize_attributes Key with
  | Raise e => (Raise e, st)
  | Ok attrs =>
      match next_outcome st with
      | (Some e, st) => (Raise e, st)
      | (None, st) =>
          match request_key attrs with
          | Raise e => (Raise e, st)
          | Ok k =>
              match items st !! k with
              | Some found =>
                  (Ok (VDict [(lit "Item", deserialize (AttrM found)); response_metadata]), st)
              | None => (Ok (VDict [response_metadata]), st)
              end
          end
      end
  end.

End table.

(** ** Statements

    A statement of the handler runs against the state of the table and
    ends with a value or with an exception. *)

Definition M (A : Type) : Type := table.state -> result A * table.state.

Definition ret {A} (a : A) : M A := fun st => (Ok a, st).

Definition bind {A B} (m : M A) (k : A -> M B) : M B :=
  fun st =>
    match m st with
    | (Ok a, st') => k a st'
    | (Raise e, st') => (Raise e, st')
    end.

(** An expression that does not touch the table. *)
Definition pure {A} (r : result A) : M A := fun st => (r, st).

(** [try: body / except Exception as e: handler e] *)
Definition try_except {A} (body : M A) (handler : exn -> M A) : M A :=
  fun st =>
    match body st with
    | (Ok a, st') => (Ok a, st')
    | (Raise e, st') => handler e st'
    end.

Notation "x <- m ;; k" := (bind m (fun x => k))
  (at level 100, m at next level, right associativity).

(** ** The handler *)

(** The dict the handler returns. *)
Record response : Type := mk_response {
  statusCode : Z;
  body : str
}.

(** [event['requestContext']['http']['method']] (line 58) *)
Definition request_method (event : value) : result value :=
  rbind (rbind (getitem event (lit "requestContext"))
               (fun requestContext => getitem requestContext (lit "http")))
        (fun http => getitem http (lit "method")).

(** The [try] block of the POST branch (lines 70 to 82). *)
Definition post_block (event : value) : M response :=
  raw <- pure (getitem event (lit "body")) ;;
  body <- pure (json.loads raw) ;;
  user_id <- pure (getitem body (lit "user_id")) ;;
  name <- pure (getitem body (lit "name")) ;;
  _ <- table.put_item [(lit "UserID", user_id); (lit "Name", name)] ;;
  text <- pure (json.dumps (VStr (lit "User " ++ py_str name ++ lit " saved successfully"))) ;;
  ret (mk_response 200 text).

(** The [try] block of the GET branch (lines 97 to 108). *)
Definition get_block (event : value) : M response :=
  queryStringParameters <- pure (getitem event (lit "queryStringParameters")) ;;
  user_id <- pure (getitem queryStringParameters (lit "id")) ;;
  response <- table.get_item [(lit "UserID", user_id)] ;;
  if contains response (lit "Item") then
    item <- pure (getitem response (lit "Item")) ;;
    text <- pure (json.dumps item) ;;
    ret (mk_response 200 text)
  else
    text <- pure (json.dumps (VStr (lit "User " ++ py_str user_id ++ lit " not found"))) ;;
    ret (mk_response 404 text).

(** The two [except Exception as e] clauses (lines 83 to 86 and 109 to
    112), which differ in what they print only.  They print the text of
    [e]: the texts of the exceptions the statements of the [try] blocks
    raise themselves are ASCII, and those of the service are taken to be
    texts that can be written. *)
Definition except_block (e : exn) : M response :=
  text <- pure (json.dumps (VStr (str_exn e))) ;;
  ret (mk_response 500 text).

(** [lambda_handler(event, context)].  What [print] writes goes to the
    log stream, which is not part of the state, but a [print] can raise.
    Line 50 prints the text of [json.dumps(event)], which is ASCII
    ([ensure_ascii] is on), and line 67 a literal: evaluating the
    argument is all that can raise there.  Line 59 prints the method as
    it came, outside both [try] blocks. *)
Definition lambda_handler (event context : value) : M response :=
  _ <- pure (json.dumps event) ;;
  http_method <- pure (request_method event) ;;
  _ <- pure (print [VStr (lit "HTTP Method:"); http_method]) ;;
  if eq_str http_method (lit "POST") then
    try_except (post_block event) except_block
  else if eq_str http_method (lit "GET") then
    try_except (get_block event) except_block
  else
    text <- pure (json.dumps (VStr (lit "Invalid HTTP method"))) ;;
    ret (mk_response 400 text).

(** ** Requests and table states

    The vocabulary of the statements below. *)

(** A decoded JSON document: any value without a [Decimal] in it.  The
    Lambda runtime builds the event by decoding JSON. *)
Fixpoint json_value (v : value) : bool :=
  match v with
  | VDecimal _ => false
  | VList items => forallb json_value items
  | VDict entries => forallb (fun kv => json_value (snd kv)) entries
  | _ => true
  end.

(** An inbound event whose method is POST and whose body is [raw]. *)
Definition POST_request (event raw : value) : Prop :=
  json_value event = true /\
  request_method event = Ok (VStr (lit "POST")) /\
  getitem event (lit "body") = Ok raw.

(** An inbound event whose method is GET. *)
Definition GET_request (event : value) : Prop :=
  json_value event = true /\
  request_method event = Ok (VStr (lit "GET")).

(** An inbound GET event whose query string binds [id] to [user_id]. *)
Definition GET_user (event : value) (user_id : value) : Prop :=
  GET_request event /\
  exists queryStringParameters,
    getitem event (lit "queryStringParameters") = Ok queryStringParameters /\
    getitem queryStringParameters (lit "id") = Ok user_id.

(** [raw] is a JSON text that decodes to an object with the string
    fields [user_id] and [name]. *)
Definition encodes_user (raw : value) (user_id name : str) : Prop :=
  exists decoded,
    json.loads raw = Ok decoded /\
    getitem decoded (lit "user_id") = Ok (VStr user_id) /\
    getitem decoded (lit "name") = Ok (VStr name).

(** A Unicode scalar value: a code point that is not a surrogate. *)
Definition scalar (c : N) : bool :=
  (c <? 55296) || ((57344 <=? c) && (c <=? 1114111)).

(** A text: a [str] of scalar values, as decoding UTF-8 gives. *)
Definition is_text (s : str) : bool := forallb scalar s.

(** The object [{"user_id": user_id, "name": name}]. *)
Definition user_object (user_id name : str) : value :=
  VDict [(lit "user_id", VStr user_id); (lit "name", VStr name)].

(** An inbound POST event that carries the pair [user_id], [name]. *)
Definition POST_user (event : value) (user_id name : str) : Prop :=
  exists raw, POST_request event raw /\ encodes_user raw user_id name.

(** The item the handler writes for [user_id] and [name], as Python
    hands it to [put_item] and as the table keeps it. *)
Definition user_item (user_id name : str) : list (str * value) :=
  [(lit "UserID", VStr user_id); (lit "Name", VStr name)].

Definition user_record (user_id name : str) : list (str * table.attr) :=
  [(lit "UserID", table.AttrS user_id); (lit "Name", table.AttrS name)].

(** What [get_item] hands back for a stored record. *)
Definition record_value (record : list (str * table.attr)) : value :=
  table.deserialize (table.AttrM record).

(** The service serves the next [n] calls. *)
Definition serves (n : nat) (st : table.state) : Prop :=
  Forall (fun o => o = None) (take n (table.outcomes st)).

Definition is_put (c : table.call) : bool :=
  match c with
  | table.PutItem _ => true
  | table.GetItem _ => false
  end.

(** The 500 response the [except] clauses build for [e]. *)
Definition error_response (e : exn) : response :=
  mk_response 500 (json.encode_basestring_ascii (str_exn e)).

(** *** Sample requests *)

(** A JSON text written with ['] in place of the double quote. *)
Definition json_text (s : string) : str :=
  map (fun c => if c =? ord "'" then dquote else c) (lit s).

(** An API Gateway HTTP API (v2) event, cut down to the fields the
    handler reads. *)
Definition http_event (method : string) (fields : list (str * value)) : value :=
  VDict ((lit "requestContext", VDict [(lit "http", VDict [(lit "method", VStr (lit method))])])
         :: fields).

Definition post_event (doc : string) : value :=
  http_event "POST" [(lit "body", VStr (json_text doc))].

Definition get_event (id : string) : value :=
  http_event "GET" [(lit "queryStringParameters", VDict [(lit "id", VStr (lit id))])].

(** The event of a GET with [?id=]: the id is the empty [str]. *)
Definition get_empty_id : value :=
  http_event "GET" [(lit "queryStringParameters", VDict [(lit "id", VStr [])])].



Definition empty_table : table.state := table.mk_state ∅ [] [].

(** A table that holds one user, behind a service that refuses the next
    call. *)
Definition throttled_table : table.state :=
  table.mk_state
    {[ lit "1" := user_record (lit "1") (lit "A") ]}
    [Some (ClientError (lit "ProvisionedThroughputExceededException")
                       (lit "The level of configured provisioned throughput for the table was exceeded.")
                       (lit "PutItem"))]
    [].

(** A table that holds one user, behind a service that cannot be
    reached for the next call. *)
Definition offline_table : table.state :=
  table.mk_state
    {[ lit "1" := user_record (lit "1") (lit "A") ]}
    [Some (BotoCoreError (lit "Could not connect to the endpoint URL"))]
    [].

(** A table that holds two users. *)
Definition two_users : table.state :=
  table.mk_state
    (<[ lit "2" := user_record (lit "2") (lit "B") ]>
       {[ lit "1" := user_record (lit "1") (lit "A") ]})
    [] [].

(** A POST that API Gateway passes on without a body. *)
Definition post_without_body : value := http_event "POST" [].

(** Induction on a value, through the lists it nests. *)
Section ValueInduction.
Variable P : value -> Prop.
Hypothesis P_None : P VNone.
Hypothesis P_Bool : forall b, P (VBool b).
Hypothesis P_Int : forall z, P (VInt z).
Hypothesis P_Float : forall numeral, P (VFloat numeral).
Hypothesis P_Str : forall s, P (VStr s).
Hypothesis P_List : forall items, Forall P items -> P (VList items).
Hypothesis P_Dict :
  forall entries, Forall (fun kv => P (snd kv)) entries -> P (VDict entries).
Hypothesis P_Decimal : forall z, P (VDecimal z).

Fixpoint value_nested_ind (v : value) : P v :=
  match v with
  | VNone => P_None
  | VBool b => P_Bool b
  | VInt z => P_Int z
  | VFloat numeral => P_Float numeral
  | VStr s => P_Str s
  | VList items =>
      P_List items
        ((fix all (l : list value) : Forall P l :=
            match l with
            | [] => @List.Forall_nil _ P
            | x :: rest => @List.Forall_cons _ P x rest (value_nested_ind x) (all rest)
            end) items)
  | VDict entries =>
      P_Dict entries
        ((fix all (l : list (str * value)) : Forall (fun kv => P (snd kv)) l :=
            match l with
            | [] => @List.Forall_nil _ (fun kv => P (snd kv))
            | kv :: rest =>
                @List.Forall_cons _ (fun kv => P (snd kv)) kv rest
                  (value_nested_ind (snd kv)) (all rest)
            end) entries)
  | VDecimal z => P_Decimal z
  end.
End ValueInduction.

(** * Properties *)

(** ** Encoding and decoding *)

Lemma dumps_str (s : str) :
  json.dumps (VStr s) = Ok (json.encode_basestring_ascii s).
Proof. reflexivity. Qed.

Lemma traverse_ok {A B} (f : A -> result B) (l : list A) :
  Forall (fun x => exists y, f x = Ok y) l -> exists ys, traverse f l = Ok ys.
Proof.
  induction 1 as [|x l [y Hy] _ [ys Hys]]; simpl.
  - eauto.
  - rewrite Hy, Hys. simpl. eauto.
Qed.

Lemma Forall_forallb {A} (f : A -> bool) (Q : A -> Prop) (l : list A) :
  Forall (fun x => f x = true -> Q x) l -> forallb f l = true -> Forall Q l.
Proof.
  induction 1 as [|x l Hx _ IH]; simpl; intros Hl; constructor;
    apply andb_prop in Hl; destruct Hl; auto.
Qed.

(** [json.dumps] raises nothing on a decoded JSON document. *)
Lemma dumps_json_value (v : value) :
  json_value v = true -> exists text, json.dumps v = Ok text.
Proof.
  induction v as [ | [] | | | | items IH | entries IH | ] using value_nested_ind;
    simpl; intros Hv; try discriminate; eauto.
  - destruct (traverse_ok json.dumps items) as [parts Hparts].
    + exact (Forall_forallb _ _ _ IH Hv).
    + rewrite Hparts. simpl. eauto.
  - match goal with |- context [traverse ?f entries] =>
      destruct (traverse_ok f entries) as [parts Hparts] end.
    + apply (Forall_forallb (fun kv => json_value (snd kv))); [|exact Hv].
      eapply Forall_impl; [exact IH|]. simpl. intros kv Hkv Hjson.
      destruct (Hkv Hjson) as [text Htext]. rewrite Htext. simpl. eauto.
    + rewrite Hparts. simpl. eauto.
Qed.

(** *** Reading back what [json.dumps] writes

    The digits of a [\uXXXX] escape first, then one escaped character,
    a whole string, and the object of a user. *)

Ltac to_props :=
  rewrite ?orb_true_iff, ?andb_true_iff, ?orb_false_iff, ?andb_false_iff,
    ?N.ltb_lt, ?N.leb_le, ?N.ltb_ge, ?N.leb_gt, ?N.eqb_eq, ?N.eqb_neq in *.

Lemma hex_value_digit (d : N) : d < 16 -> json.hex_value (hex_digit d) = Some d.
Proof.
  intros Hd.
  assert (H : d = 0 \/ d = 1 \/ d = 2 \/ d = 3 \/ d = 4 \/ d = 5 \/ d = 6 \/ d = 7 \/
              d = 8 \/ d = 9 \/ d = 10 \/ d = 11 \/ d = 12 \/ d = 13 \/ d = 14 \/ d = 15)
    by lia.
  repeat (destruct H as [-> | H]; [reflexivity|]). now subst.
Qed.

Lemma hex4_hex (c : N) :
  c < 65536 ->
  exists a b c' d, hex 4 c = [a; b; c'; d] /\ json.hex4 a b c' d = Some c.
Proof.
  intros Hc. do 4 eexists. split; [reflexivity|].
  unfold json.hex4.
  rewrite !hex_value_digit by (apply N.mod_lt; discriminate).
  f_equal. zify. Z.to_euclidean_division_equations. lia.
Qed.

Lemma scanstring_cons (begin : str) (c : N) (r : str) :
  json.scanstring begin (c :: r)
  = if c =? dquote then json.Scanned [] r
    else if c =? ord "\" then
      match r with
      | [] => json.Stop (lit "Unterminated string starting at") begin
      | e :: r1 =>
          if e =? ord "u" then json.scan_unicode_escape (json.scanstring begin) r
          else
            match json.unescape e with
            | Some c' => json.push c' (json.scanstring begin r1)
            | None => json.Stop (lit "Invalid \escape") (c :: r)
            end
      end
    else if c <=? 31 then json.Stop (lit "Invalid control character at") (c :: r)
    else json.push c (json.scanstring begin r).
Proof. reflexivity. Qed.

Lemma scan_unicode_escape_single (k : str -> json.scan str) (u h1 h2 h3 h4 x c : N)
      (tail : str) :
  json.hex4 h1 h2 h3 h4 = Some c ->
  json.is_high_surrogate c = false ->
  json.scan_unicode_escape k (u :: h1 :: h2 :: h3 :: h4 :: x :: tail)
  = json.push c (k (x :: tail)).
Proof.
  intros Hhex Hhigh. unfold json.scan_unicode_escape. rewrite Hhex, Hhigh.
  destruct tail as [|t1 [|t2 [|t3 [|t4 [|t5 [|t6 tail]]]]]]; reflexivity.
Qed.

Lemma scan_unicode_escape_pair (k : str -> json.scan str)
      (u h1 h2 h3 h4 g1 g2 g3 g4 x hi lo : N) (tail : str) :
  json.hex4 h1 h2 h3 h4 = Some hi -> json.is_high_surrogate hi = true ->
  json.hex4 g1 g2 g3 g4 = Some lo -> json.is_low_surrogate lo = true ->
  json.scan_unicode_escape k
    (u :: h1 :: h2 :: h3 :: h4 :: 92 :: 117 :: g1 :: g2 :: g3 :: g4 :: x :: tail)
  = json.push (json.join_surrogates hi lo) (k (x :: tail)).
Proof.
  intros Hhi Hhigh Hlo Hlow. unfold json.scan_unicode_escape.
  now rewrite Hhi, Hhigh, Hlo, Hlow.
Qed.

Lemma scalar_not_high (c : N) : scalar c = true -> json.is_high_surrogate c = false.
Proof.
  unfold scalar, json.is_high_surrogate. intros Hc.
  apply not_true_is_false. intros Hh. to_props. lia.
Qed.

(** The scanner reads back one escaped character. *)
Lemma scanstring_escape_char (begin : str) (c x : N) (tail : str) :
  scalar c = true ->
  json.scanstring begin (json.escape_char c ++ x :: tail)
  = json.push c (json.scanstring begin (x :: tail)).
Proof.
  intros Hc. unfold json.escape_char.
  repeat match goal with
         | |- context [if c =? ?k then _ else _] =>
             destruct (N.eqb_spec c k) as [->|?]; [reflexivity|]
         end.
  destruct ((32 <=? c) && (c <=? 126)) eqn:E8.
  - cbn [app]. rewrite scanstring_cons.
    destruct (N.eqb_spec c dquote); [easy|]. destruct (N.eqb_spec c (ord "\")); [easy|].
    destruct (N.leb_spec c 31); [to_props; lia|reflexivity].
  - destruct (c <? 65536) eqn:E9.
    + destruct (hex4_hex c) as (a & b & c' & d & -> & Hhex); [to_props; lia|].
      change (json.scanstring begin ((lit "\u" ++ [a; b; c'; d]) ++ x :: tail))
        with (json.scan_unicode_escape (json.scanstring begin)
                (117 :: a :: b :: c' :: d :: x :: tail)).
      apply scan_unicode_escape_single; [exact Hhex|now apply scalar_not_high].
    + assert (Hv : 65536 <= c /\ c - 65536 < 1048576)
        by (unfold scalar in Hc; to_props; lia).
      destruct Hv as [Hlow Hv].
      remember (c - 65536) as v eqn:Hvdef.
      assert (Hq : v / 1024 < 1024) by (apply N.Div0.div_lt_upper_bound; lia).
      assert (Hr : v mod 1024 < 1024) by (apply N.mod_lt; discriminate).
      pose proof (N.Div0.div_mod v 1024) as Hdiv.
      revert Hdiv Hq Hr. generalize (v / 1024) (v mod 1024). intros q r Hdiv Hq Hr.
      destruct (hex4_hex (55296 + q)) as (a & b & c' & d & -> & Hhi); [lia|].
      destruct (hex4_hex (56320 + r)) as (a' & b' & c'' & d' & -> & Hlo); [lia|].
      assert (Hjoin : json.join_surrogates (55296 + q) (56320 + r) = c)
        by (unfold json.join_surrogates; lia).
      rewrite <- Hjoin.
      change (json.scanstring begin
                ((lit "\u" ++ [a; b; c'; d] ++ lit "\u" ++ [a'; b'; c''; d']) ++ x :: tail))
        with (json.scan_unicode_escape (json.scanstring begin)
                (117 :: a :: b :: c' :: d :: 92 :: 117 :: a' :: b' :: c'' :: d' :: x :: tail)).
      apply scan_unicode_escape_pair; try assumption;
        unfold json.is_high_surrogate, json.is_low_surrogate; to_props; lia.
Qed.

(** The scanner reads back an encoded text. *)
Lemma scanstring_encoded (s : str) :
  is_text s = true ->
  forall begin rest,
    json.scanstring begin (concat (map json.escape_char s) ++ dquote :: rest)
    = json.Scanned s rest.
Proof.
  induction s as [|c s IH]; intros Hs begin rest.
  - reflexivity.
  - cbn [is_text forallb] in Hs. apply andb_prop in Hs as [Hc Hs].
    cbn [map concat]. rewrite <- app_assoc.
    specialize (IH Hs begin rest).
    destruct (concat (map json.escape_char s) ++ dquote :: rest) as [|x tail] eqn:E.
    + now destruct (concat (map json.escape_char s)).
    + rewrite (scanstring_escape_char _ _ _ _ Hc), IH. reflexivity.
Qed.

Lemma scan_once_string (f : nat) (s rest : str) :
  is_text s = true ->
  json.scan_once (S f) (dquote :: concat (map json.escape_char s) ++ dquote :: rest)
  = json.Scanned (VStr s) rest.
Proof.
  intros Hs.
  set (r := concat (map json.escape_char s) ++ dquote :: rest).
  change (json.scan_once (S f) (dquote :: r))
    with (match json.scanstring (dquote :: r) r with
          | json.Scanned text rest => json.Scanned (VStr text) rest
          | json.Stop msg at_ => json.Stop msg at_
          | json.Abort e => json.Abort e
          end).
  subst r. now rewrite scanstring_encoded.
Qed.

(** One member of an object, with a text for value, followed by [d]. *)
Lemma parse_object_member (f : nat) (acc : list (str * value)) (key s rest : str) (d : N) :
  is_text key = true -> is_text s = true -> json.is_whitespace d = false ->
  json.parse_object (S (S f)) acc
    (dquote :: concat (map json.escape_char key)
       ++ dquote :: 58 :: 32 :: dquote :: concat (map json.escape_char s)
       ++ dquote :: d :: rest)
  = if d =? ord "}" then json.Scanned (VDict (dict_set acc key (VStr s))) rest
    else if d =? ord ","
    then json.parse_object (S f) (dict_set acc key (VStr s)) (json.skip_whitespace rest)
    else json.Stop (lit "Expecting ',' delimiter") (d :: rest).
Proof.
  intros Hkey Hs Hd.
  set (v := dquote :: concat (map json.escape_char s) ++ dquote :: d :: rest).
  set (r := concat (map json.escape_char key) ++ dquote :: 58 :: 32 :: v).
  refine (eq_trans (y := match json.scanstring (dquote :: r) r with
                         | json.Scanned key0 rest0 => _
                         | json.Stop msg at_ => _
                         | json.Abort e => _
                         end) eq_refl _).
  subst r. rewrite scanstring_encoded by assumption.
  refine (eq_trans (y := match json.scan_once (S f) v with
                         | json.Scanned v0 rest0 => _
                         | _ => _
                         end) eq_refl _).
  subst v. rewrite scan_once_string by assumption.
  cbn [json.skip_whitespace]. rewrite Hd. reflexivity.
Qed.

(** [json.loads] reads back what [json.dumps] writes for a pair of
    texts. *)
Lemma loads_dumps_user (user_id name : str) :
  is_text user_id = true -> is_text name = true ->
  exists doc,
    json.dumps (user_object user_id name) = Ok doc /\
    json.loads (VStr doc) = Ok (user_object user_id name).
Proof.
  intros Hu Hn.
  set (tail := concat (map json.escape_char name) ++ [dquote; 125]).
  set (second := dquote :: concat (map json.escape_char (lit "name"))
                   ++ dquote :: 58 :: 32 :: dquote :: tail).
  set (first := dquote :: concat (map json.escape_char (lit "user_id"))
                  ++ dquote :: 58 :: 32 :: dquote
                  :: concat (map json.escape_char user_id)
                  ++ dquote :: 44 :: 32 :: second).
  exists (123 :: first). split.
  - unfold user_object. cbn [json.dumps traverse rbind fst snd].
    unfold json.encode_basestring_ascii. subst first second tail.
    f_equal. cbn [join]. rewrite <- !app_assoc. reflexivity.
  - change (json.loads (VStr (123 :: first))) with (json.decode (123 :: first)).
    unfold json.decode. cbn [json.skip_whitespace json.is_whitespace N.eqb Pos.eqb orb].
    assert (Hfuel : exists f, Nat.add (Nat.mul 2 (length (123 :: first))) 2 = S (S (S (S f))))
      by (exists (Nat.mul 2 (length first)); cbn [length]; lia).
    destruct Hfuel as [f ->].
    change (json.scan_once (S (S (S (S f)))) (123 :: first))
      with (json.parse_object (S (S (S f))) [] first).
    subst first. rewrite parse_object_member by (assumption || reflexivity).
    change (json.parse_object (S (S f)) (dict_set [] (lit "user_id") (VStr user_id))
              (json.skip_whitespace (32 :: second)))
      with (json.parse_object (S (S f)) [(lit "user_id", VStr user_id)] second).
    subst second tail. cbn [ord N_of_ascii N_of_digits N.eqb Pos.eqb N.add N.mul].
    rewrite parse_object_member by (assumption || reflexivity).
    reflexivity.
Qed.

(** The text [json.dumps] writes for a pair of texts is a JSON encoding
    of the pair. *)
Lemma dumps_encodes_user (user_id name doc : str) :
  is_text user_id = true -> is_text name = true ->
  json.dumps (user_object user_id name) = Ok doc ->
  encodes_user (VStr doc) user_id name.
Proof.
  intros Hu Hn Hdoc.
  destruct (loads_dumps_user user_id name Hu Hn) as (doc' & Hdoc' & Hloads).
  rewrite Hdoc in Hdoc'. injection Hdoc' as <-.
  exists (user_object user_id name). split; [exact Hloads|].
  split; vm_compute; reflexivity.
Qed.

Lemma record_value_user (user_id name : str) :
  record_value (user_record user_id name) = VDict (user_item user_id name).
Proof. reflexivity. Qed.

(** The JSON text of a user record. *)
Lemma dumps_user_item (user_id name : str) :
  json.dumps (VDict (user_item user_id name))
  = Ok (json_text "{'UserID': " ++ json.encode_basestring_ascii user_id
        ++ json_text ", 'Name': " ++ json.encode_basestring_ascii name ++ lit "}").
Proof.
  unfold user_item. cbn [json.dumps traverse rbind fst snd].
  generalize (json.encode_basestring_ascii user_id) (json.encode_basestring_ascii name).
  intros x y. lazy - [app]. now rewrite <- !app_assoc.
Qed.

(** ** The table *)

Lemma state_eta (st : table.state) :
  table.mk_state (table.items st) (table.outcomes st) (table.calls st) = st.
Proof. now destruct st. Qed.

Lemma next_outcome_served (n : nat) (st : table.state) :
  serves (S n) st ->
  table.next_outcome st
  = (None, table.mk_state (table.items st) (tail (table.outcomes st)) (table.calls st)).
Proof.
  unfold serves, table.next_outcome. destruct st as [its [|o rest] cs]; simpl.
  - reflexivity.
  - intros H. apply Forall_cons in H as [-> _]. reflexivity.
Qed.

Lemma serves_tail (n : nat) (its its' : gmap str (list (str * table.attr)))
      (os : list (option exn)) (cs cs' : list table.call) :
  serves (S n) (table.mk_state its os cs) ->
  serves n (table.mk_state its' (tail os) cs').
Proof.
  unfold serves; simpl. destruct os as [|o rest]; simpl.
  - now rewrite take_nil.
  - intros H. now apply Forall_cons in H as [_ H].
Qed.

Lemma next_outcome_frame (st : table.state) :
  table.items (table.next_outcome st).2 = table.items st /\
  table.calls (table.next_outcome st).2 = table.calls st.
Proof. unfold table.next_outcome. now destruct (table.outcomes st). Qed.

(** Every [put_item] is recorded; it changes the items only when it
    succeeds, and then by storing the serialized item under its key. *)
Lemma put_item_spec (Item : list (str * value)) (st : table.state) :
  table.calls (table.put_item Item st).2 = table.calls st ++ [table.PutItem Item] /\
  match (table.put_item Item st).1 with
  | Ok _ =>
      exists attrs k,
        table.serialize_attributes Item = Ok attrs /\
        table.item_key attrs = Ok k /\
        table.items (table.put_item Item st).2 = <[k := attrs]> (table.items st)
  | Raise _ => table.items (table.put_item Item st).2 = table.items st
  end.
Proof.
  unfold table.put_item.
  destruct (table.serialize_attributes Item) as [attrs|e]; simpl; [|easy].
  destruct (next_outcome_frame (table.log (table.PutItem Item) st)) as [Hi Hc].
  destruct (table.next_outcome _) as [[e|] st1]; simpl in *; [easy|].
  destruct (table.item_key attrs) as [k|e] eqn:Hk; simpl; [|easy].
  split; [easy|]. exists attrs, k. now rewrite Hi.
Qed.

(** A [get_item] is recorded and leaves the items alone. *)
Lemma get_item_spec (Key : list (str * value)) (st : table.state) :
  table.calls (table.get_item Key st).2 = table.calls st ++ [table.GetItem Key] /\
  table.items (table.get_item Key st).2 = table.items st.
Proof.
  unfold table.get_item.
  destruct (table.serialize_attributes Key) as [attrs|e]; simpl; [|easy].
  destruct (next_outcome_frame (table.log (table.GetItem Key) st)) as [Hi Hc].
  destruct (table.next_outcome _) as [[e|] st1]; simpl in *; [easy|].
  destruct (table.request_key attrs) as [k|e]; simpl; [|easy].
  now destruct (table.items st1 !! k).
Qed.

Lemma item_key_user (user_id name : str) :
  user_id <> [] -> table.item_key (user_record user_id name) = Ok user_id.
Proof. now destruct user_id. Qed.

(** Writing a user with a non-empty id to a service that serves the
    call. *)
Lemma put_user_served (n : nat) (user_id name : str) (st : table.state) :
  user_id <> [] -> serves (S n) st ->
  table.put_item (user_item user_id name) st
  = (Ok (VDict [table.response_metadata]),
     table.mk_state (<[user_id := user_record user_id name]> (table.items st))
                    (tail (table.outcomes st))
                    (table.calls st ++ [table.PutItem (user_item user_id name)])).
Proof.
  intros Hid Hserved. unfold table.put_item.
  change (table.serialize_attributes (user_item user_id name))
    with (Ok (A := list (str * table.attr)) (user_record user_id name)).
  rewrite (next_outcome_served n) by (destruct st; exact Hserved).
  now rewrite item_key_user.
Qed.

(** Reading a non-empty id from a service that serves the call. *)
Lemma get_user_served (n : nat) (user_id : str) (st : table.state) :
  user_id <> [] -> serves (S n) st ->
  table.get_item [(lit "UserID", VStr user_id)] st
  = (Ok (match table.items st !! user_id with
         | Some record => VDict [(lit "Item", record_value record); table.response_metadata]
         | None => VDict [table.response_metadata]
         end),
     table.mk_state (table.items st) (tail (table.outcomes st))
                    (table.calls st ++ [table.GetItem [(lit "UserID", VStr user_id)]])).
Proof.
  intros Hid Hserved. unfold table.get_item.
  change (table.serialize_attributes [(lit "UserID", VStr user_id)])
    with (Ok (A := list (str * table.attr)) [(lit "UserID", table.AttrS user_id)]).
  rewrite (next_outcome_served n) by (destruct st; exact Hserved).
  destruct user_id as [|c user_id]; [easy|].
  change (table.request_key [(lit "UserID", table.AttrS (c :: user_id))])
    with (Ok (A := str) (c :: user_id)).
  simpl. now destruct (table.items st !! (c :: user_id)).
Qed.

(** ** Running the handler *)

Arguments lit : simpl never.
Arguments json.dumps : simpl never.
Arguments json.encode_basestring_ascii : simpl never.
Arguments py_str : simpl never.
Arguments str_exn : simpl never.

Lemma response_with_item (item : value) :
  contains (VDict [(lit "Item", item); table.response_metadata]) (lit "Item") = true /\
  getitem (VDict [(lit "Item", item); table.response_metadata]) (lit "Item") = Ok item.
Proof. split; vm_compute; reflexivity. Qed.

Lemma response_without_item :
  contains (VDict [table.response_metadata]) (lit "Item") = false.
Proof. vm_compute. reflexivity. Qed.

Lemma except_block_run (e : exn) (st : table.state) :
  except_block e st = (Ok (error_response e), st).
Proof. reflexivity. Qed.

(** Past line 59 the handler is one of its three branches. *)
Lemma handler_dispatch (event context m : value) (st : table.state) :
  json_value event = true ->
  request_method event = Ok m ->
  print [VStr (lit "HTTP Method:"); m] = Ok tt ->
  lambda_handler event context st
  = if eq_str m (lit "POST") then try_except (post_block event) except_block st
    else if eq_str m (lit "GET") then try_except (get_block event) except_block st
    else (Ok (mk_response 400 (json.encode_basestring_ascii (lit "Invalid HTTP method"))), st).
Proof.
  intros Hjson Hm Hprint. destruct (dumps_json_value event Hjson) as [text Htext].
  unfold lambda_handler, bind, pure. rewrite Htext, Hm, Hprint.
  destruct (eq_str m (lit "POST")); [reflexivity|].
  destruct (eq_str m (lit "GET")); reflexivity.
Qed.

(** The POST branch answers with what its [try] block returns, or with
    the 500 response for what it raises. *)
Lemma handler_post (event raw context : value) (st : table.state) :
  POST_request event raw ->
  lambda_handler event context st
  = match post_block event st with
    | (Ok r, st') => (Ok r, st')
    | (Raise e, st') => (Ok (error_response e), st')
    end.
Proof.
  intros (Hjson & Hm & _). rewrite (handler_dispatch _ _ _ _ Hjson Hm eq_refl).
  reflexivity.
Qed.

Lemma handler_get (event context : value) (st : table.state) :
  GET_request event ->
  lambda_handler event context st
  = match get_block event st with
    | (Ok r, st') => (Ok r, st')
    | (Raise e, st') => (Ok (error_response e), st')
    end.
Proof.
  intros (Hjson & Hm). rewrite (handler_dispatch _ _ _ _ Hjson Hm eq_refl).
  reflexivity.
Qed.

(** The [try] block of the POST branch, statement by statement. *)
Lemma post_block_run (event raw : value) (st : table.state) :
  getitem event (lit "body") = Ok raw ->
  post_block event st
  = match json.loads raw with
    | Raise e => (Raise e, st)
    | Ok decoded =>
        match getitem decoded (lit "user_id") with
        | Raise e => (Raise e, st)
        | Ok user_id =>
            match getitem decoded (lit "name") with
            | Raise e => (Raise e, st)
            | Ok name =>
                match table.put_item [(lit "UserID", user_id); (lit "Name", name)] st with
                | (Raise e, st') => (Raise e, st')
                | (Ok _, st') =>
                    (Ok (mk_response 200
                           (json.encode_basestring_ascii
                              (lit "User " ++ py_str name ++ lit " saved successfully"))),
                     st')
                end
            end
        end
    end.
Proof.
  intros Hraw. unfold post_block, bind, pure. rewrite Hraw.
  destruct (json.loads raw) as [decoded|e]; [|reflexivity].
  destruct (getitem decoded (lit "user_id")) as [user_id|e]; [|reflexivity].
  destruct (getitem decoded (lit "name")) as [name|e]; [|reflexivity].
  destruct (table.put_item _ st) as [[r|e] st']; reflexivity.
Qed.

(** The [try] block of the GET branch, once the id is read. *)
Lemma get_block_run (event queryStringParameters user_id : value) (st : table.state) :
  getitem event (lit "queryStringParameters") = Ok queryStringParameters ->
  getitem queryStringParameters (lit "id") = Ok user_id ->
  get_block event st
  = match table.get_item [(lit "UserID", user_id)] st with
    | (Raise e, st') => (Raise e, st')
    | (Ok response, st') =>
        if contains response (lit "Item") then
          match rbind (getitem response (lit "Item")) json.dumps with
          | Ok text => (Ok (mk_response 200 text), st')
          | Raise e => (Raise e, st')
          end
        else
          (Ok (mk_response 404
                 (json.encode_basestring_ascii
                    (lit "User " ++ py_str user_id ++ lit " not found"))),
           st')
    end.
Proof.
  intros Hq Hid. unfold get_block, bind, pure. rewrite Hq, Hid.
  destruct (table.get_item _ st) as [[response|e] st']; [|reflexivity].
  destruct (contains response (lit "Item")); [|reflexivity].
  destruct (getitem response (lit "Item")) as [item|e]; [|reflexivity].
  simpl. destruct (json.dumps item); reflexivity.
Qed.

(** The GET branch never changes the items and never writes. *)
Lemma get_block_frame (event : value) (st : table.state) :
  table.items (get_block event st).2 = table.items st /\
  exists reads,
    table.calls (get_block event st).2 = table.calls st ++ reads /\
    Forall (fun c => is_put c = false) reads.
Proof.
  assert (Hnone : exists reads,
             table.calls st = table.calls st ++ reads /\
             Forall (fun c => is_put c = false) reads)
    by (exists []; now rewrite app_nil_r).
  unfold get_block, bind, pure.
  destruct (getitem event _) as [q|e]; simpl; [|easy].
  destruct (getitem q _) as [user_id|e]; simpl; [|easy].
  destruct (get_item_spec [(lit "UserID", user_id)] st) as [Hc Hi].
  assert (Hread : exists reads,
             table.calls (table.get_item [(lit "UserID", user_id)] st).2
             = table.calls st ++ reads /\
             Forall (fun c => is_put c = false) reads)
    by (eexists; split; [exact Hc|now constructor]).
  destruct (table.get_item _ st) as [[response|e] st']; simpl in *; [|easy].
  destruct (contains response _); [|easy].
  destruct (getitem response _) as [item|e]; simpl; [|easy].
  now destruct (json.dumps item).
Qed.

(** A value that serializes to a string attribute is that [str]. *)
Lemma serialize_str (v : value) (s : str) :
  table.serialize v = Ok (table.AttrS s) -> v = VStr s.
Proof.
  destruct v; simpl; try discriminate.
  - destruct (table.decimal_signals z); discriminate.
  - now intros [= ->].
  - destruct (traverse table.serialize items); discriminate.
  - match goal with |- context [traverse ?f entries] =>
      destruct (traverse f entries) end; discriminate.
  - destruct (table.decimal_signals z); discriminate.
Qed.

(** *** What a call to the table can do *)

Lemma put_item_ok (Item : list (str * value)) (st st' : table.state) (r : value) :
  table.put_item Item st = (Ok r, st') ->
  exists attrs k,
    table.serialize_attributes Item = Ok attrs /\
    table.item_key attrs = Ok k /\
    st' = table.mk_state (<[k := attrs]> (table.items st)) (tail (table.outcomes st))
                         (table.calls st ++ [table.PutItem Item]).
Proof.
  unfold table.put_item, table.next_outcome, table.log.
  destruct (table.serialize_attributes Item) as [attrs|e]; cbn; [|discriminate].
  destruct (table.outcomes st) as [|[e|] rest]; cbn; try discriminate;
    (destruct (table.item_key attrs) as [k|e] eqn:Hk; [|discriminate]);
    intros [= _ <-]; now exists attrs, k.
Qed.

Lemma put_item_raise (Item : list (str * value)) (st st' : table.state) (e : exn) :
  table.put_item Item st = (Raise e, st') ->
  table.items st' = table.items st /\
  table.calls st' = table.calls st ++ [table.PutItem Item] /\
  (table.outcomes st' = table.outcomes st \/ table.outcomes st' = tail (table.outcomes st)).
Proof.
  unfold table.put_item, table.next_outcome, table.log.
  destruct (table.serialize_attributes Item) as [attrs|e0]; cbn;
    [|intros [= _ <-]; cbn; auto].
  destruct (table.outcomes st) as [|[e0|] rest]; cbn;
    try (destruct (table.item_key attrs) as [k|e1]; [discriminate|]);
    intros [= _ <-]; cbn; auto.
Qed.

Lemma get_item_ok (Key : list (str * value)) (st st' : table.state) (r : value) :
  table.get_item Key st = (Ok r, st') ->
  exists attrs k,
    table.serialize_attributes Key = Ok attrs /\
    table.request_key attrs = Ok k /\
    r = match table.items st !! k with
        | Some record => VDict [(lit "Item", record_value record); table.response_metadata]
        | None => VDict [table.response_metadata]
        end /\
    st' = table.mk_state (table.items st) (tail (table.outcomes st))
                         (table.calls st ++ [table.GetItem Key]).
Proof.
  unfold table.get_item, table.next_outcome, table.log.
  destruct (table.serialize_attributes Key) as [attrs|e]; cbn; [|discriminate].
  destruct (table.outcomes st) as [|[e|] rest]; cbn; try discriminate;
    (destruct (table.request_key attrs) as [k|e] eqn:Hkey; [|discriminate]);
    (destruct (table.items st !! k) as [record|] eqn:Hk; intros [= <- <-];
     exists attrs, k; rewrite Hk; auto).
Qed.

Lemma get_item_raise (Key : list (str * value)) (st st' : table.state) (e : exn) :
  table.get_item Key st = (Raise e, st') ->
  table.items st' = table.items st /\
  table.calls st' = table.calls st ++ [table.GetItem Key] /\
  (table.outcomes st' = table.outcomes st \/ table.outcomes st' = tail (table.outcomes st)).
Proof.
  unfold table.get_item, table.next_outcome, table.log.
  destruct (table.serialize_attributes Key) as [attrs|e0]; cbn;
    [|intros [= _ <-]; cbn; auto].
  destruct (table.outcomes st) as [|[e0|] rest]; cbn;
    try (destruct (table.request_key attrs) as [k|e1];
         [destruct (table.items st !! k); discriminate|]);
    intros [= _ <-]; cbn; auto.
Qed.

(** The key the handler reads by is the text of the id. *)
Lemma handler_key (user_id : value) (attrs : list (str * table.attr)) (k : str) :
  table.serialize_attributes [(lit "UserID", user_id)] = Ok attrs ->
  table.request_key attrs = Ok k ->
  user_id = VStr k /\ k <> [].
Proof.
  unfold table.serialize_attributes. cbn [traverse fst snd].
  destruct (table.serialize user_id) as [a|e] eqn:Ha; cbn [rbind]; [|discriminate].
  intros [= <-].
  destruct a as [s| | | | |]; try (vm_compute; discriminate).
  apply serialize_str in Ha as ->.
  destruct s as [|c s]; [vm_compute; discriminate|].
  change (table.request_key [(lit "UserID", table.AttrS (c :: s))]) with (Ok (A := str) (c :: s)).
  now intros [= <-].
Qed.

(** The item the handler writes has its two attributes and no other, and
    goes under the text of the id. *)
Lemma handler_item (user_id name : value) (attrs : list (str * table.attr)) (k : str) :
  table.serialize_attributes [(lit "UserID", user_id); (lit "Name", name)] = Ok attrs ->
  table.item_key attrs = Ok k ->
  user_id = VStr k /\ k <> [] /\
  exists a, table.serialize name = Ok a /\
            attrs = [(lit "UserID", table.AttrS k); (lit "Name", a)].
Proof.
  unfold table.serialize_attributes. cbn [traverse fst snd].
  destruct (table.serialize user_id) as [u|e] eqn:Hu; cbn [rbind]; [|discriminate].
  destruct (table.serialize name) as [a|e] eqn:Ha; cbn [rbind]; [|discriminate].
  intros [= <-].
  destruct u as [s| | | | |]; try (vm_compute; discriminate).
  apply serialize_str in Hu as ->.
  destruct s as [|c s]; [vm_compute; discriminate|].
  change (table.item_key [(lit "UserID", table.AttrS (c :: s)); (lit "Name", a)])
    with (Ok (A := str) (c :: s)).
  intros [= <-]. repeat split; eauto.
Qed.

(** *** What the two [try] blocks can do *)

(** Reads the outcome and the state off an equation between two runs. *)
Ltac outcome :=
  let H := fresh in
  intros H;
  match type of H with
  | (Ok ?x, ?s) = (Ok ?r, ?s') =>
      assert (r = x) by congruence; assert (s' = s) by congruence; subst r s'; clear H
  | (Raise ?x, ?s) = (Raise ?e, ?s') =>
      assert (e = x) by congruence; assert (s' = s) by congruence; subst e s'; clear H
  end.

(** When the POST block returns, it has stored the two attributes under
    the text of [user_id], by one call. *)
Lemma post_block_ok (event : value) (st st' : table.state) (r : response) :
  post_block event st = (Ok r, st') ->
  exists raw decoded k name a,
    getitem event (lit "body") = Ok raw /\
    json.loads raw = Ok decoded /\
    getitem decoded (lit "user_id") = Ok (VStr k) /\
    k <> [] /\
    getitem decoded (lit "name") = Ok name /\
    table.serialize name = Ok a /\
    r = mk_response 200
          (json.encode_basestring_ascii
             (lit "User " ++ py_str name ++ lit " saved successfully")) /\
    st' = table.mk_state
            (<[k := [(lit "UserID", table.AttrS k); (lit "Name", a)]]> (table.items st))
            (tail (table.outcomes st))
            (table.calls st ++ [table.PutItem [(lit "UserID", VStr k); (lit "Name", name)]]).
Proof.
  unfold post_block, bind, pure.
  destruct (getitem event _) as [raw|e] eqn:Hraw; [|discriminate].
  destruct (json.loads raw) as [decoded|e] eqn:Hloads; [|discriminate].
  destruct (getitem decoded (lit "user_id")) as [user_id|e] eqn:Hid; [|discriminate].
  destruct (getitem decoded (lit "name")) as [name|e] eqn:Hname; [|discriminate].
  destruct (table.put_item _ st) as [[written|e] st1] eqn:Hput; [|discriminate].
  rewrite dumps_str. unfold ret. outcome.
  apply put_item_ok in Hput as (attrs & k & Hattrs & Hkey & ->).
  destruct (handler_item _ _ _ _ Hattrs Hkey) as (-> & Hk & a & Ha & ->).
  now exists raw, decoded, k, name, a.
Qed.

(** When the POST block raises, the items are as they were, and at most
    one call was made. *)
Lemma post_block_raise (event : value) (st st' : table.state) (e : exn) :
  post_block event st = (Raise e, st') ->
  table.items st' = table.items st /\
  (st' = st \/
   exists Item,
     table.calls st' = table.calls st ++ [table.PutItem Item] /\
     (table.outcomes st' = table.outcomes st \/
      table.outcomes st' = tail (table.outcomes st))).
Proof.
  unfold post_block, bind, pure.
  destruct (getitem event _) as [raw|e0]; [|outcome; auto].
  destruct (json.loads raw) as [decoded|e0]; [|outcome; auto].
  destruct (getitem decoded (lit "user_id")) as [user_id|e0]; [|outcome; auto].
  destruct (getitem decoded (lit "name")) as [name|e0]; [|outcome; auto].
  destruct (table.put_item _ st) as [[written|e0] st1] eqn:Hput.
  - rewrite dumps_str. discriminate.
  - outcome. apply put_item_raise in Hput as (Hitems & Hcalls & Houtcomes).
    split; [exact Hitems|]. right. eauto.
Qed.

(** When the GET block returns, it has read the text of [id] by one
    call, and answers by what the table holds under it. *)
Lemma get_block_ok (event : value) (st st' : table.state) (r : response) :
  get_block event st = (Ok r, st') ->
  exists queryStringParameters k,
    getitem event (lit "queryStringParameters") = Ok queryStringParameters /\
    getitem queryStringParameters (lit "id") = Ok (VStr k) /\
    k <> [] /\
    st' = table.mk_state (table.items st) (tail (table.outcomes st))
                         (table.calls st ++ [table.GetItem [(lit "UserID", VStr k)]]) /\
    match table.items st !! k with
    | Some record =>
        statusCode r = 200%Z /\ json.dumps (record_value record) = Ok (body r)
    | None =>
        r = mk_response 404
              (json.encode_basestring_ascii (lit "User " ++ k ++ lit " not found"))
    end.
Proof.
  unfold get_block, bind, pure.
  destruct (getitem event _) as [q|e] eqn:Hq; [|discriminate].
  destruct (getitem q _) as [user_id|e] eqn:Hid; [|discriminate].
  destruct (table.get_item _ st) as [[found|e] st1] eqn:Hget; [|discriminate].
  apply get_item_ok in Hget as (attrs & k & Hattrs & Hkey & -> & ->).
  destruct (handler_key _ _ _ Hattrs Hkey) as [-> Hk].
  destruct (table.items st !! k) as [record|] eqn:Hrecord.
  - destruct (response_with_item (record_value record)) as [-> ->].
    destruct (json.dumps (record_value record)) as [text|e] eqn:Htext; [|discriminate].
    unfold ret. outcome. exists q, k. rewrite Hrecord. repeat split; auto.
  - rewrite response_without_item, dumps_str. unfold ret. outcome.
    exists q, k. rewrite Hrecord. repeat split; auto.
Qed.

(** When the GET block raises, the items are as they were, and at most
    one call, a read, was made. *)
Lemma get_block_raise (event : value) (st st' : table.state) (e : exn) :
  get_block event st = (Raise e, st') ->
  table.items st' = table.items st /\
  (st' = st \/
   exists Key,
     table.calls st' = table.calls st ++ [table.GetItem Key] /\
     (table.outcomes st' = table.outcomes st \/
      table.outcomes st' = tail (table.outcomes st))).
Proof.
  unfold get_block, bind, pure.
  destruct (getitem event _) as [q|e0]; [|outcome; auto].
  destruct (getitem q _) as [user_id|e0]; [|outcome; auto].
  destruct (table.get_item _ st) as [[found|e0] st1] eqn:Hget.
  - apply get_item_ok in Hget as (attrs & k & _ & _ & -> & ->).
    destruct (table.items st !! k) as [record|].
    + destruct (response_with_item (record_value record)) as [-> ->].
      destruct (json.dumps (record_value record)); [discriminate|].
      outcome. split; [reflexivity|]. right. eexists. split; [reflexivity|auto].
    + rewrite response_without_item, dumps_str. discriminate.
  - outcome. apply get_item_raise in Hget as (Hitems & Hcalls & Houtcomes).
    split; [exact Hitems|]. right. eauto.
Qed.

(** *** The handler, branch by branch *)

(** Line 50, the method of line 58, its [print] of line 59, then one of
    the three branches; an exception of a [try] block ends in its
    [except] clause. *)
Lemma handler_cases (event context : value) (st : table.state) :
  lambda_handler event context st
  = match json.dumps event with
    | Raise e => (Raise e, st)
    | Ok _ =>
        match request_method event with
        | Raise e => (Raise e, st)
        | Ok m =>
            match print [VStr (lit "HTTP Method:"); m] with
            | Raise e => (Raise e, st)
            | Ok _ =>
                if eq_str m (lit "POST") then
                  match post_block event st with
                  | (Ok r, st') => (Ok r, st')
                  | (Raise e, st') => (Ok (error_response e), st')
                  end
                else if eq_str m (lit "GET") then
                  match get_block event st with
                  | (Ok r, st') => (Ok r, st')
                  | (Raise e, st') => (Ok (error_response e), st')
                  end
                else
                  (Ok (mk_response 400
                         (json.encode_basestring_ascii (lit "Invalid HTTP method"))),
                   st)
            end
        end
    end.
Proof.
  unfold lambda_handler, bind, pure.
  destruct (json.dumps event); [|reflexivity].
  destruct (request_method event) as [m|e]; [|reflexivity].
  destruct (print _); [|reflexivity].
  destruct (eq_str m (lit "POST")); [reflexivity|].
  destruct (eq_str m (lit "GET")); reflexivity.
Qed.

(** What the [try] blocks return when they return. *)
Lemma post_block_returns (event : value) (st st' : table.state) (r : response) :
  post_block event st = (Ok r, st') ->
  statusCode r = 200%Z /\ exists s, body r = json.encode_basestring_ascii s.
Proof.
  intros Hrun.
  apply post_block_ok in Hrun
    as (raw & decoded & k & name & a & _ & _ & _ & _ & _ & _ & -> & _).
  split; [reflexivity|]. eexists. reflexivity.
Qed.

Lemma get_block_returns (event : value) (st st' : table.state) (r : response) :
  get_block event st = (Ok r, st') ->
  (statusCode r = 200%Z /\
   exists k record,
     table.items st !! k = Some record /\
     json.dumps (record_value record) = Ok (body r)) \/
  (statusCode r = 404%Z /\ exists s, body r = json.encode_basestring_ascii s).
Proof.
  intros Hrun.
  apply get_block_ok in Hrun as (q & k & _ & _ & _ & _ & Hanswer).
  destruct (table.items st !! k) as [record|] eqn:Hrecord.
  - left. destruct Hanswer as [Hcode Hbody]. split; [exact Hcode|]. now exists k, record.
  - right. subst r. split; [reflexivity|]. eexists. reflexivity.
Qed.

Lemma eq_str_true (m : value) (s : str) : eq_str m s = true <-> m = VStr s.
Proof.
  destruct m; simpl; try (split; [discriminate|intros [=]]).
  unfold str_eqb. rewrite bool_decide_eq_true. split; [now intros ->|now intros [=]].
Qed.

Lemma eq_str_false (m : value) (s : str) : m <> VStr s -> eq_str m s = false.
Proof.
  intros Hm. destruct (eq_str m s) eqn:E; [|reflexivity].
  now apply eq_str_true in E.
Qed.

(** A POST for a user with a non-empty id, when the service serves the
    write. *)
Lemma post_user_served (n : nat) (event context : value) (user_id name : str)
      (st : table.state) :
  user_id <> [] -> serves (S n) st -> POST_user event user_id name ->
  lambda_handler event context st
  = (Ok (mk_response 200
           (json.encode_basestring_ascii (lit "User " ++ name ++ lit " saved successfully"))),
     table.mk_state (<[user_id := user_record user_id name]> (table.items st))
                    (tail (table.outcomes st))
                    (table.calls st ++ [table.PutItem (user_item user_id name)])).
Proof.
  intros Hid Hserved (raw & Hpost & decoded & Hloads & Huid & Hname).
  rewrite (handler_post _ _ _ _ Hpost).
  destruct Hpost as (_ & _ & Hraw). rewrite (post_block_run _ _ _ Hraw).
  rewrite Hloads, Huid, Hname.
  change [(lit "UserID", VStr user_id); (lit "Name", VStr name)] with (user_item user_id name).
  now rewrite (put_user_served n).
Qed.

(** A GET for a non-empty id, when the service serves the read. *)
Lemma get_user_served_response (n : nat) (event context : value) (user_id : str)
      (st : table.state) :
  user_id <> [] -> serves (S n) st -> GET_user event (VStr user_id) ->
  lambda_handler event context st
  = (Ok (match table.items st !! user_id with
         | Some record =>
             match json.dumps (record_value record) with
             | Ok text => mk_response 200 text
             | Raise e => error_response e
             end
         | None =>
             mk_response 404
               (json.encode_basestring_ascii (lit "User " ++ user_id ++ lit " not found"))
         end),
     table.mk_state (table.items st) (tail (table.outcomes st))
                    (table.calls st ++ [table.GetItem [(lit "UserID", VStr user_id)]])).
Proof.
  intros Hid Hserved (Hget & q & Hq & Hquery).
  rewrite (handler_get _ _ _ Hget), (get_block_run _ _ _ _ Hq Hquery).
  rewrite (get_user_served n) by assumption.
  cbv beta iota.
  destruct (table.items st !! user_id) as [record|].
  - destruct (response_with_item (record_value record)) as [-> ->].
    unfold rbind. now destruct (json.dumps (record_value record)).
  - now rewrite response_without_item.
Qed.

(** ** The contract of the handler *)








(** C9: handling a GET, or a request whose method is neither GET nor
    POST, leaves the items of the table as they were, and the calls it
    adds to the record (none, or the one read) are not writes, whatever
    the response. *)
Theorem only_post_writes (event context m : value) (st : table.state) :
  json_value event = true ->
  request_method event = Ok m ->
  m <> VStr (lit "POST") ->
  table.items (lambda_handler event context st).2 = table.items st /\
  exists reads,
    table.calls (lambda_handler event context st).2 = table.calls st ++ reads /\
    Forall (fun c => is_put c = false) reads.
Proof.
  intros Hjson Hm Hpost. rewrite handler_cases.
  destruct (dumps_json_value event Hjson) as [text ->]. rewrite Hm.
  assert (Hnone : exists reads,
             table.calls st = table.calls st ++ reads /\
             Forall (fun c => is_put c = false) reads)
    by (exists []; now rewrite app_nil_r).
  destruct (print _); [|now split].
  rewrite (eq_str_false _ _ Hpost).
  destruct (eq_str m (lit "GET")); [|now split].
  destruct (get_block_frame event st) as (Hitems & reads & Hcalls & Hreads).
  destruct (get_block event st) as [[r|e] st1]; simpl in *; eauto.
Qed.

Lemma only_post_writes_witness :
  json_value (get_event "1") = true /\
  request_method (get_event "1") = Ok (VStr (lit "GET")) /\
  table.items (lambda_handler (get_event "1") VNone throttled_table).2
  = table.items throttled_table.
Proof.
  split; [reflexivity|]. split; [reflexivity|].
  apply (only_post_writes (get_event "1") VNone (VStr (lit "GET")) throttled_table
           eq_refl eq_refl).
  discriminate.
Defined.

(** ** Writing a user *)

(** C3: a POST whose body decodes to an object with the string fields
    [user_id] and [name], and whose write the table accepts, makes
    exactly one call to the table, [put_item] with [UserID = user_id]
    and [Name = name]; the record is then the one stored under
    [user_id], whether or not there was one before; and the response is
    status 200 with the JSON-encoded text [User {name} saved
    successfully]. *)
Theorem post_saves_the_user (event context written : value) (user_id name : str)
        (st st' : table.state) :
  POST_user event user_id name ->
  table.put_item (user_item user_id name) st = (Ok written, st') ->
  lambda_handler event context st
  = (Ok (mk_response 200
           (json.encode_basestring_ascii (lit "User " ++ name ++ lit " saved successfully"))),
     st') /\
  table.calls st' = table.calls st ++ [table.PutItem (user_item user_id name)] /\
  table.items st' = <[user_id := user_record user_id name]> (table.items st).
Proof.
  intros (raw & Hpost & decoded & Hloads & Huid & Hname) Hput.
  split.
  - rewrite (handler_post _ _ _ _ Hpost).
    destruct Hpost as (_ & _ & Hraw). rewrite (post_block_run _ _ _ Hraw).
    rewrite Hloads, Huid, Hname.
    change [(lit "UserID", VStr user_id); (lit "Name", VStr name)]
      with (user_item user_id name).
    now rewrite Hput.
  - destruct (put_item_spec (user_item user_id name) st) as [Hcalls Hitems].
    rewrite Hput in Hcalls, Hitems. simpl in Hcalls, Hitems.
    split; [exact Hcalls|].
    destruct Hitems as (attrs & k & Hattrs & Hkey & ->).
    change (table.serialize_attributes (user_item user_id name))
      with (Ok (A := list (str * table.attr)) (user_record user_id name)) in Hattrs.
    injection Hattrs as <-.
    destruct user_id as [|c user_id]; [discriminate Hkey|].
    now injection Hkey as <-.
Qed.

Lemma post_saves_the_user_witness :
  POST_user (post_event "{'user_id': '1', 'name': 'Ann'}") (lit "1") (lit "Ann") /\
  lambda_handler (post_event "{'user_id': '1', 'name': 'Ann'}") VNone empty_table
  = (Ok (mk_response 200 (json_text "'User Ann saved successfully'")),
     table.mk_state {[ lit "1" := user_record (lit "1") (lit "Ann") ]} []
                    [table.PutItem (user_item (lit "1") (lit "Ann"))]).
Proof.
  assert (Hpost : POST_user (post_event "{'user_id': '1', 'name': 'Ann'}")
                            (lit "1") (lit "Ann")).
  { eexists. split; [repeat split; reflexivity|].
    eexists. split; [vm_compute; reflexivity|]. split; reflexivity. }
  split; [exact Hpost|].
  refine (proj1 (post_saves_the_user _ VNone (VDict [table.response_metadata])
                   (lit "1") (lit "Ann") empty_table _ Hpost _)).
  vm_compute. reflexivity.
Defined.



(** C10: a POST whose body is not a JSON text, or decodes to a value
    without the field [user_id] or without the field [name], is answered
    with status 500 and leaves the state of the table as it was: the
    exception comes before [put_item], and no call is made. *)
Theorem rejected_post_writes_nothing (event raw context : value) (st : table.state) :
  POST_request event raw ->
  ((exists e, json.loads raw = Raise e) \/
   (exists decoded e,
       json.loads raw = Ok decoded /\
       (getitem decoded (lit "user_id") = Raise e \/
        (exists user_id, getitem decoded (lit "user_id") = Ok user_id) /\
        getitem decoded (lit "name") = Raise e))) ->
  exists r,
    lambda_handler event context st = (Ok r, st) /\ statusCode r = 500%Z.
Proof.
  intros Hpost Hfails. rewrite (handler_post _ _ _ _ Hpost).
  destruct Hpost as (_ & _ & Hraw). rewrite (post_block_run _ _ _ Hraw).
  destruct Hfails as [[e ->] | (decoded & e & -> & [-> | [[user_id ->] ->]])];
    eexists; split; reflexivity.
Qed.

Lemma rejected_post_writes_nothing_witness :
  POST_request (post_event "user_id=1") (VStr (lit "user_id=1")) /\
  exists r,
    lambda_handler (post_event "user_id=1") VNone throttled_table
    = (Ok r, throttled_table) /\ statusCode r = 500%Z.
Proof.
  assert (Hpost : POST_request (post_event "user_id=1") (VStr (lit "user_id=1")))
    by (repeat split; reflexivity).
  split; [exact Hpost|].
  apply (rejected_post_writes_nothing _ _ VNone throttled_table Hpost).
  left. eexists. vm_compute. reflexivity.
Defined.

(** ** Reading a user *)

(** C4, as the code has it: a record that holds a number is found and
    not returned.  The handler stores the user of a POST whose [name] is
    the number 5 and answers 200; the table then holds a record under
    the id, with the name as a number; the GET for that id, served by
    the table, is answered with status 500 and the text of the
    [TypeError] of [json.dumps], which has no encoding for the [Decimal]
    the number comes back as, where line 104 has the user found and
    line 105 returns it as JSON. *)
Theorem a_stored_number_is_not_returned :
  let saved := lambda_handler (post_event "{'user_id': '1', 'name': 5}") VNone empty_table in
  saved.1 = Ok (mk_response 200 (json_text "'User 5 saved successfully'")) /\
  table.items saved.2 !! lit "1"
  = Some [(lit "UserID", table.AttrS (lit "1")); (lit "Name", table.AttrN 5)] /\
  GET_user (get_event "1") (VStr (lit "1")) /\
  serves 1 saved.2 /\
  lambda_handler (get_event "1") VNone saved.2
  = (Ok (mk_response 500 (json_text "'Object of type Decimal is not JSON serializable'")),
     table.mk_state (table.items saved.2) []
       (table.calls saved.2 ++ [table.GetItem [(lit "UserID", VStr (lit "1"))]])).
Proof.
  split; [vm_compute; reflexivity|]. split; [vm_compute; reflexivity|].
  split; [split; [split; reflexivity|]; eexists; split; reflexivity|].
  split; [constructor|]. vm_compute. reflexivity.
Qed.

(** The part of the GET branch that does what lines 103 to 108 say: for
    a GET whose query string binds [id] to a non-empty text, answered by
    the table, a record that has a JSON text is returned with status
    200, and every record of the data model, a [UserID] and a [Name]
    that are strings, has one; when the table holds no record under the
    id, the response is status 404 with the JSON-encoded text
    [User {id} not found], which has the id in it. *)
Lemma get_finds_the_user_or_404 (event context : value) (user_id : str)
        (st : table.state) :
  GET_user event (VStr user_id) ->
  user_id <> [] ->
  serves 1 st ->
  let st' :=
    table.mk_state (table.items st) (tail (table.outcomes st))
                   (table.calls st ++ [table.GetItem [(lit "UserID", VStr user_id)]]) in
  (forall record text,
      table.items st !! user_id = Some record ->
      json.dumps (record_value record) = Ok text ->
      lambda_handler event context st = (Ok (mk_response 200 text), st')) /\
  (forall name,
      table.items st !! user_id = Some (user_record user_id name) ->
      lambda_handler event context st
      = (Ok (mk_response 200
               (json_text "{'UserID': " ++ json.encode_basestring_ascii user_id
                ++ json_text ", 'Name': " ++ json.encode_basestring_ascii name ++ lit "}")),
         st')) /\
  (table.items st !! user_id = None ->
   lambda_handler event context st
   = (Ok (mk_response 404
            (json.encode_basestring_ascii (lit "User " ++ user_id ++ lit " not found"))),
      st')).
Proof.
  intros Hget Hid Hserved st'.
  rewrite (get_user_served_response 0 _ _ _ _ Hid Hserved Hget).
  split; [|split].
  - now intros record text -> ->.
  - intros name ->. now rewrite record_value_user, dumps_user_item.
  - now intros ->.
Qed.

Lemma get_finds_the_user_or_404_witness :
  GET_user (get_event "1") (VStr (lit "1")) /\
  lit "1" <> [] /\
  serves 1 (table.mk_state (table.items throttled_table) [] []) /\
  lambda_handler (get_event "1") VNone (table.mk_state (table.items throttled_table) [] [])
  = (Ok (mk_response 200 (json_text "{'UserID': '1', 'Name': 'A'}")),
     table.mk_state (table.items throttled_table) []
                    [table.GetItem [(lit "UserID", VStr (lit "1"))]]).
Proof.
  assert (Hget : GET_user (get_event "1") (VStr (lit "1"))).
  { split; [split; reflexivity|]. eexists. split; reflexivity. }
  assert (Hid : lit "1" <> []) by discriminate.
  assert (Hserved : serves 1 (table.mk_state (table.items throttled_table) [] []))
    by constructor.
  repeat (split; [assumption|]).
  apply (proj1 (proj2 (get_finds_the_user_or_404 _ VNone _ _ Hget Hid Hserved)) (lit "A")).
  vm_compute. reflexivity.
Defined.




(** ** Writing, then reading *)

(** C2: for every name and every non-empty id, behind a service that
    serves both calls, a POST whose body is a JSON encoding of the pair
    followed by a GET for that id returns status 200 with a body that is
    the JSON text of a record with that [UserID] and that [Name]. *)
Theorem post_then_get (post get context : value) (user_id name : str)
        (st : table.state) :
  user_id <> [] ->
  serves 2 st ->
  POST_user post user_id name ->
  GET_user get (VStr user_id) ->
  exists saved st1 found st2,
    lambda_handler post context st = (Ok saved, st1) /\
    statusCode saved = 200%Z /\
    lambda_handler get context st1 = (Ok found, st2) /\
    statusCode found = 200%Z /\
    json.dumps (VDict (user_item user_id name)) = Ok (body found) /\
    getitem (VDict (user_item user_id name)) (lit "UserID") = Ok (VStr user_id) /\
    getitem (VDict (user_item user_id name)) (lit "Name") = Ok (VStr name).
Proof.
  intros Hid Hserved Hpost Hget.
  do 4 eexists.
  split; [exact (post_user_served 1 _ _ _ _ _ Hid Hserved Hpost)|].
  split; [reflexivity|].
  rewrite (get_user_served_response 0 _ _ _ _ Hid) by
    (try exact Hget; destruct st; exact (serves_tail 1 _ _ _ _ _ Hserved)).
  cbn [table.items]. rewrite lookup_insert_eq, record_value_user, dumps_user_item.
  split; [reflexivity|]. split; [reflexivity|].
  split; [reflexivity|]. split; reflexivity.
Qed.

Lemma post_then_get_witness :
  lit "u-7" <> [] /\
  serves 2 empty_table /\
  POST_user (post_event "{'user_id': 'u-7', 'name': 'Zo\u00eb'}") (lit "u-7") (lit "Zo" ++ [235]) /\
  GET_user (get_event "u-7") (VStr (lit "u-7")) /\
  exists found st2,
    lambda_handler (get_event "u-7") VNone
      (lambda_handler (post_event "{'user_id': 'u-7', 'name': 'Zo\u00eb'}") VNone empty_table).2
    = (Ok found, st2) /\
    statusCode found = 200%Z.
Proof.
  assert (Hid : lit "u-7" <> []) by discriminate.
  assert (Hserved : serves 2 empty_table) by constructor.
  assert (Hpost : POST_user (post_event "{'user_id': 'u-7', 'name': 'Zo\u00eb'}")
                            (lit "u-7") (lit "Zo" ++ [235])).
  { eexists. split; [repeat split; reflexivity|].
    eexists. split; [vm_compute; reflexivity|]. split; reflexivity. }
  assert (Hget : GET_user (get_event "u-7") (VStr (lit "u-7"))).
  { split; [split; reflexivity|]. eexists. split; reflexivity. }
  repeat (split; [assumption|]).
  destruct (post_then_get _ _ VNone _ _ _ Hid Hserved Hpost Hget)
    as (saved & st1 & found & st2 & Hsaved & _ & Hfound & Hcode & _).
  exists found, st2. rewrite Hsaved. split; assumption.
Defined.

(** C8: a write under an id that is there already replaces the record:
    after a POST of [name] and a POST of [other] under the same id, the
    table holds the record of [other] alone under it and a GET returns
    it; and after two POSTs of the same name the table holds the items
    it held after the first. *)
Theorem later_write_wins (first again second get context : value)
        (user_id name other : str) (st : table.state) :
  user_id <> [] ->
  serves 3 st ->
  POST_user first user_id name ->
  POST_user again user_id name ->
  POST_user second user_id other ->
  GET_user get (VStr user_id) ->
  let st1 := (lambda_handler first context st).2 in
  (let st2 := (lambda_handler second context st1).2 in
   table.items st2 !! user_id = Some (user_record user_id other) /\
   exists found st3,
     lambda_handler get context st2 = (Ok found, st3) /\
     statusCode found = 200%Z /\
     json.dumps (VDict (user_item user_id other)) = Ok (body found)) /\
  (let st2 := (lambda_handler again context st1).2 in
   table.items st2 = table.items st1 /\
   table.items st2 !! user_id = Some (user_record user_id name)).
Proof.
  intros Hid Hserved Hfirst Hagain Hsecond Hget st1.
  assert (Hserved1 : serves 2 st1).
  { subst st1. rewrite (post_user_served 2 _ _ _ _ _ Hid Hserved Hfirst).
    destruct st; exact (serves_tail 2 _ _ _ _ _ Hserved). }
  assert (Hitems1 : table.items st1 = <[user_id := user_record user_id name]> (table.items st))
    by (subst st1; now rewrite (post_user_served 2 _ _ _ _ _ Hid Hserved Hfirst)).
  split.
  - intros st2.
    assert (Hserved2 : serves 1 st2).
    { subst st2. rewrite (post_user_served 1 _ _ _ _ _ Hid Hserved1 Hsecond).
      destruct st1; exact (serves_tail 1 _ _ _ _ _ Hserved1). }
    assert (Hitems2 : table.items st2 !! user_id = Some (user_record user_id other)).
    { subst st2. rewrite (post_user_served 1 _ _ _ _ _ Hid Hserved1 Hsecond).
      cbn [table.items snd]. apply lookup_insert_eq. }
    split; [exact Hitems2|].
    rewrite (get_user_served_response 0 _ _ _ _ Hid Hserved2 Hget).
    rewrite Hitems2, record_value_user, dumps_user_item.
    do 2 eexists. split; [reflexivity|]. split; reflexivity.
  - intros st2. subst st2.
    rewrite (post_user_served 1 _ _ _ _ _ Hid Hserved1 Hagain).
    cbn [table.items snd]. rewrite Hitems1. split.
    + apply insert_insert_eq.
    + apply lookup_insert_eq.
Qed.

(** The run the spec describes: id 1, name A, then name B. *)
Lemma later_write_wins_witness :
  lit "1" <> [] /\
  serves 3 empty_table /\
  POST_user (post_event "{'user_id': '1', 'name': 'A'}") (lit "1") (lit "A") /\
  POST_user (post_event "{'user_id': '1', 'name': 'B'}") (lit "1") (lit "B") /\
  GET_user (get_event "1") (VStr (lit "1")) /\
  exists found st3,
    lambda_handler (get_event "1") VNone
      (lambda_handler (post_event "{'user_id': '1', 'name': 'B'}") VNone
         (lambda_handler (post_event "{'user_id': '1', 'name': 'A'}") VNone empty_table).2).2
    = (Ok found, st3) /\
    statusCode found = 200%Z /\
    json.dumps (VDict (user_item (lit "1") (lit "B"))) = Ok (body found).
Proof.
  assert (Hid : lit "1" <> []) by discriminate.
  assert (Hserved : serves 3 empty_table) by constructor.
  assert (HA : POST_user (post_event "{'user_id': '1', 'name': 'A'}") (lit "1") (lit "A")).
  { eexists. split; [repeat split; reflexivity|].
    eexists. split; [vm_compute; reflexivity|]. split; reflexivity. }
  assert (HB : POST_user (post_event "{'user_id': '1', 'name': 'B'}") (lit "1") (lit "B")).
  { eexists. split; [repeat split; reflexivity|].
    eexists. split; [vm_compute; reflexivity|]. split; reflexivity. }
  assert (Hget : GET_user (get_event "1") (VStr (lit "1"))).
  { split; [split; reflexivity|]. eexists. split; reflexivity. }
  repeat (split; [assumption|]).
  exact (proj2 (proj1 (later_write_wins _ _ _ _ VNone _ _ _ _ Hid Hserved HA HA HB Hget))).
Defined.

(** ** Sample runs *)

(** The text of a decoding error, as the 500 response carries it. *)
Example truncated_body_message :
  lambda_handler (post_event "{'user_id': ") VNone empty_table
  = (Ok (mk_response 500
           (json_text "'Expecting value: line 1 column 13 (char 12)'")),
     empty_table).
Proof. vm_compute. reflexivity. Qed.

(** The three ways of not naming a user in a GET. *)
Example get_without_query_string :
  (lambda_handler (http_event "GET" []) VNone empty_table).1
  = Ok (mk_response 500 (json.encode_basestring_ascii (lit "'queryStringParameters'"))).
Proof. vm_compute. reflexivity. Qed.

Example get_without_id :
  (lambda_handler (http_event "GET" [(lit "queryStringParameters", VDict [])])
                  VNone empty_table).1
  = Ok (mk_response 500 (json.encode_basestring_ascii (lit "'id'"))).
Proof. vm_compute. reflexivity. Qed.

Example get_with_empty_id :
  (lambda_handler (get_empty_id) VNone empty_table).1
  = Ok (error_response (table.validation (lit "GetItem") table.empty_key_message)).
Proof. vm_compute. reflexivity. Qed.

(** A write the service refuses: the table keeps its items. *)
Example throttled_write :
  let run := lambda_handler (post_event "{'user_id': '2', 'name': 'B'}") VNone throttled_table in
  run.1 = Ok (error_response
                (ClientError (lit "ProvisionedThroughputExceededException")
                   (lit "The level of configured provisioned throughput for the table was exceeded.")
                   (lit "PutItem"))) /\
  table.items run.2 = table.items throttled_table.
Proof. split; vm_compute; reflexivity. Qed.

(** * Further properties of the handler *)

(** What one invocation does to the table: nothing; or one call that
    leaves the items alone; or the write of a POST block that returned. *)
Lemma handler_effect (event context : value) (st : table.state) :
  (lambda_handler event context st).2 = st \/
  (table.items (lambda_handler event context st).2 = table.items st /\
   exists c, table.calls (lambda_handler event context st).2 = table.calls st ++ [c]) \/
  (request_method event = Ok (VStr (lit "POST")) /\
   exists r,
     lambda_handler event context st = (Ok r, (lambda_handler event context st).2) /\
     post_block event st = (Ok r, (lambda_handler event context st).2)).
Proof.
  rewrite handler_cases.
  destruct (json.dumps event); [|now left].
  destruct (request_method event) as [m|e]; [|now left].
  destruct (print _); [|now left].
  destruct (eq_str m (lit "POST")) eqn:Hpost.
  - apply eq_str_true in Hpost as ->.
    destruct (post_block event st) as [[r|e] st1] eqn:Hrun.
    + right. right. split; [reflexivity|]. now exists r.
    + apply post_block_raise in Hrun as (Hitems & [-> | (Item & Hcalls & _)]);
        [now left|right; left; eauto].
  - destruct (eq_str m (lit "GET")); [|now left].
    destruct (get_block event st) as [[r|e] st1] eqn:Hrun.
    + apply get_block_ok in Hrun as (q & k & _ & _ & _ & -> & _).
      right. left. eauto.
    + apply get_block_raise in Hrun as (Hitems & [-> | (Key & Hcalls & _)]);
        [now left|right; left; eauto].
Qed.

(** The answer to a POST, read backwards: the block returned it, or it
    is the 500 response and the items are as they were. *)
Lemma handler_post_answer (event context : value) (st st' : table.state) (r : response) :
  json_value event = true ->
  request_method event = Ok (VStr (lit "POST")) ->
  lambda_handler event context st = (Ok r, st') ->
  post_block event st = (Ok r, st') \/
  (statusCode r = 500%Z /\ table.items st' = table.items st).
Proof.
  intros Hjson Hm. rewrite (handler_dispatch _ _ _ _ Hjson Hm eq_refl).
  change (eq_str (VStr (lit "POST")) (lit "POST")) with true. unfold try_except.
  destruct (post_block event st) as [[r0|e] st1] eqn:Hrun.
  - intros [= <- <-]. now left.
  - rewrite except_block_run. intros [= <- <-]. right.
    now apply post_block_raise in Hrun as [Hitems _].
Qed.

Lemma handler_get_answer (event context : value) (st st' : table.state) (r : response) :
  GET_request event ->
  lambda_handler event context st = (Ok r, st') ->
  get_block event st = (Ok r, st') \/
  (statusCode r = 500%Z /\ table.items st' = table.items st).
Proof.
  intros Hget. rewrite (handler_get _ _ _ Hget).
  destruct (get_block event st) as [[r0|e] st1] eqn:Hrun.
  - intros [= <- <-]. now left.
  - intros [= <- <-]. right.
    now apply get_block_raise in Hrun as [Hitems _].
Qed.

(** ** Where an exception can escape *)



(** ** What an invocation does to the table *)

(** X2: whatever the event, one invocation makes at most one call to the
    table, and the calls made before it stay on record. *)
Theorem at_most_one_call (event context : value) (st : table.state) :
  exists made,
    table.calls (lambda_handler event context st).2 = table.calls st ++ made /\
    (length made <= 1)%nat.
Proof.
  destruct (handler_effect event context st)
    as [-> | [(_ & c & ->) | (_ & r & _ & Hrun)]].
  - exists []. split; [now rewrite app_nil_r|]. cbn. lia.
  - exists [c]. split; [reflexivity|]. cbn. lia.
  - apply post_block_ok in Hrun as (raw & decoded & k & name & a & _ & _ & _ & _ & _ & _ & _ & ->).
    eexists [_]. split; [reflexivity|]. cbn. lia.
Qed.

(** X3: the handler never removes a record: whatever the event, an id
    under which the table holds a record holds one afterwards. *)
Theorem no_record_is_removed (event context : value) (st : table.state) (k : str) :
  is_Some (table.items st !! k) ->
  is_Some (table.items (lambda_handler event context st).2 !! k).
Proof.
  intros Hk.
  destruct (handler_effect event context st)
    as [-> | [(-> & _) | (_ & r & _ & Hrun)]]; [assumption|assumption|].
  apply post_block_ok in Hrun as (raw & decoded & k0 & name & a & _ & _ & _ & _ & _ & _ & _ & ->).
  cbn [table.items]. destruct (decide (k0 = k)) as [->|Hne].
  - rewrite lookup_insert_eq. eauto.
  - now rewrite lookup_insert_ne.
Qed.

(** A POST over a user who is there, and a POST the service refuses. *)
Lemma no_record_is_removed_witness :
  is_Some (table.items throttled_table !! lit "1") /\
  is_Some (table.items
             (lambda_handler (post_event "{'user_id': '1', 'name': 'Z'}") VNone
                             throttled_table).2 !! lit "1").
Proof.
  assert (Hk : is_Some (table.items throttled_table !! lit "1"))
    by (exists (user_record (lit "1") (lit "A")); vm_compute; reflexivity).
  split; [exact Hk|].
  exact (no_record_is_removed _ VNone throttled_table (lit "1") Hk).
Defined.

(** X4: a record changes by a POST for its own id only: when the record
    under [k] is not what it was, the method was POST, the body decoded
    to a value whose [user_id] is the text [k], the record is now
    [UserID = k] with the [name] of the body, and the answer is 200. *)
Theorem a_changed_record_was_posted (event context : value) (st : table.state) (k : str) :
  table.items (lambda_handler event context st).2 !! k <> table.items st !! k ->
  request_method event = Ok (VStr (lit "POST")) /\
  exists raw decoded name a r,
    getitem event (lit "body") = Ok raw /\
    json.loads raw = Ok decoded /\
    getitem decoded (lit "user_id") = Ok (VStr k) /\
    getitem decoded (lit "name") = Ok name /\
    table.serialize name = Ok a /\
    table.items (lambda_handler event context st).2 !! k
    = Some [(lit "UserID", table.AttrS k); (lit "Name", a)] /\
    (lambda_handler event context st).1 = Ok r /\
    statusCode r = 200%Z.
Proof.
  destruct (handler_effect event context st)
    as [-> | [(-> & _) | (Hm & r & Hanswer & Hrun)]]; [easy|easy|].
  rewrite Hanswer. cbn [fst snd].
  apply post_block_ok in Hrun
    as (raw & decoded & k0 & name & a & Hraw & Hloads & Hid & _ & Hname & Ha & -> & ->).
  cbn [table.items]. destruct (decide (k0 = k)) as [->|Hne].
  - intros _. split; [exact Hm|]. exists raw, decoded, name, a. eexists.
    rewrite lookup_insert_eq. repeat split; assumption || reflexivity.
  - rewrite lookup_insert_ne by assumption. easy.
Qed.

(** A new name for one of [two_users], in a body with a field more. *)
Lemma a_changed_record_was_posted_witness :
  table.items
    (lambda_handler (post_event "{'user_id': '1', 'name': 'Z', 'age': 7}") VNone
                    two_users).2 !! lit "1"
  <> table.items two_users !! lit "1" /\
  exists a,
    table.items
      (lambda_handler (post_event "{'user_id': '1', 'name': 'Z', 'age': 7}") VNone
                      two_users).2 !! lit "1"
    = Some [(lit "UserID", table.AttrS (lit "1")); (lit "Name", a)].
Proof.
  assert (Hk : table.items
                 (lambda_handler (post_event "{'user_id': '1', 'name': 'Z', 'age': 7}") VNone
                                 two_users).2 !! lit "1"
               <> table.items two_users !! lit "1")
    by (vm_compute; discriminate).
  split; [exact Hk|].
  destruct (a_changed_record_was_posted _ VNone two_users (lit "1") Hk)
    as (_ & raw & decoded & name & a & r & _ & _ & _ & _ & _ & Hrecord & _).
  exists a. exact Hrecord.
Defined.

(** ** While the service refuses *)

Lemma put_item_refused (Item : list (str * value)) (st : table.state) (e : exn)
      (rest : list (option exn)) :
  table.outcomes st = Some e :: rest ->
  exists e', (table.put_item Item st).1 = Raise e'.
Proof.
  intros Hnext. unfold table.put_item, table.next_outcome, table.log.
  destruct (table.serialize_attributes Item); cbn; [|eauto].
  rewrite Hnext. cbn. eauto.
Qed.

Lemma get_item_refused (Key : list (str * value)) (st : table.state) (e : exn)
      (rest : list (option exn)) :
  table.outcomes st = Some e :: rest ->
  exists e', (table.get_item Key st).1 = Raise e'.
Proof.
  intros Hnext. unfold table.get_item, table.next_outcome, table.log.
  destruct (table.serialize_attributes Key); cbn; [|eauto].
  rewrite Hnext. cbn. eauto.
Qed.

Lemma post_block_refused (event : value) (st : table.state) (e : exn)
      (rest : list (option exn)) :
  table.outcomes st = Some e :: rest ->
  exists e' st', post_block event st = (Raise e', st').
Proof.
  intros Hnext. unfold post_block, bind, pure.
  destruct (getitem event _) as [raw|e0]; [|eauto].
  destruct (json.loads raw) as [decoded|e0]; [|eauto].
  destruct (getitem decoded (lit "user_id")) as [user_id|e0]; [|eauto].
  destruct (getitem decoded (lit "name")) as [name|e0]; [|eauto].
  destruct (put_item_refused [(lit "UserID", user_id); (lit "Name", name)] _ _ _ Hnext)
    as [e' He'].
  destruct (table.put_item _ st) as [[written|e0] st1]; [discriminate He'|eauto].
Qed.

Lemma get_block_refused (event : value) (st : table.state) (e : exn)
      (rest : list (option exn)) :
  table.outcomes st = Some e :: rest ->
  exists e' st', get_block event st = (Raise e', st').
Proof.
  intros Hnext. unfold get_block, bind, pure.
  destruct (getitem event _) as [q|e0]; [|eauto].
  destruct (getitem q _) as [user_id|e0]; [|eauto].
  destruct (get_item_refused [(lit "UserID", user_id)] _ _ _ Hnext) as [e' He'].
  destruct (table.get_item _ st) as [[found|e0] st1]; [discriminate He'|eauto].
Qed.

(** X5: while the service refuses the next call (it throttles, denies
    or cannot be reached), no request is answered 200 or 404: the answer
    to a POST and to a GET is status 500, that to any other method its
    400, and the items stay as they were. *)
Theorem nothing_succeeds_while_refused (event context m : value) (st st' : table.state)
        (e : exn) (rest : list (option exn)) (r : response) :
  request_method event = Ok m ->
  table.outcomes st = Some e :: rest ->
  lambda_handler event context st = (Ok r, st') ->
  table.items st' = table.items st /\
  (statusCode r = 500%Z \/
   statusCode r = 400%Z /\ m <> VStr (lit "POST") /\ m <> VStr (lit "GET")).
Proof.
  intros Hm Hnext. rewrite handler_cases, Hm.
  destruct (json.dumps event); [|discriminate].
  destruct (print _); [|discriminate].
  destruct (eq_str m (lit "POST")) eqn:Hpost.
  - destruct (post_block_refused event st e rest Hnext) as (e' & st1 & Hrun).
    rewrite Hrun. intros [= <- <-].
    apply post_block_raise in Hrun as [Hitems _]. auto.
  - destruct (eq_str m (lit "GET")) eqn:Hget.
    + destruct (get_block_refused event st e rest Hnext) as (e' & st1 & Hrun).
      rewrite Hrun. intros [= <- <-].
      apply get_block_raise in Hrun as [Hitems _]. auto.
    + intros [= <- <-]. split; [reflexivity|]. right.
      split; [reflexivity|].
      split; intros Heq; apply eq_str_true in Heq; congruence.
Qed.

(** A read of a user who is there, while the service cannot be reached. *)
Lemma nothing_succeeds_while_refused_witness :
  request_method (get_event "1") = Ok (VStr (lit "GET")) /\
  exists r st',
    lambda_handler (get_event "1") VNone offline_table = (Ok r, st') /\
    table.items st' = table.items offline_table /\
    statusCode r = 500%Z.
Proof.
  split; [reflexivity|].
  destruct (lambda_handler (get_event "1") VNone offline_table) as [[r|e] st'] eqn:Hrun;
    [|vm_compute in Hrun; discriminate Hrun].
  exists r, st'. split; [reflexivity|].
  destruct (nothing_succeeds_while_refused (get_event "1") VNone (VStr (lit "GET"))
              offline_table st' _ _ r eq_refl eq_refl Hrun)
    as (Hitems & [Hcode | (_ & _ & Hget)]); [auto|now contradiction Hget].
Defined.

(** ** What an answer tells *)

(** X6: a POST event without a [body] entry, as API Gateway sends for a
    request without one, is answered with status 500 and the
    JSON-encoded text of [KeyError('body')]; the table is not called. *)
Theorem post_without_body_is_500 (entries : list (str * value)) (context : value)
        (st : table.state) :
  json_value (VDict entries) = true ->
  request_method (VDict entries) = Ok (VStr (lit "POST")) ->
  dict_get entries (lit "body") = None ->
  lambda_handler (VDict entries) context st
  = (Ok (mk_response 500 (json.encode_basestring_ascii (lit "'body'"))), st).
Proof.
  intros Hjson Hm Hbody. rewrite (handler_dispatch _ _ _ _ Hjson Hm eq_refl).
  change (eq_str (VStr (lit "POST")) (lit "POST")) with true.
  unfold try_except, post_block, bind, pure.
  cbn [getitem]. rewrite Hbody. reflexivity.
Qed.

Lemma post_without_body_is_500_witness :
  json_value post_without_body = true /\
  request_method post_without_body = Ok (VStr (lit "POST")) /\
  lambda_handler post_without_body VNone two_users
  = (Ok (mk_response 500 (json.encode_basestring_ascii (lit "'body'"))), two_users).
Proof.
  split; [reflexivity|]. split; [reflexivity|].
  exact (post_without_body_is_500
           [(lit "requestContext", VDict [(lit "http", VDict [(lit "method", VStr (lit "POST"))])])]
           VNone two_users eq_refl eq_refl eq_refl).
Defined.

(** X7: a 404 is never a guess.  When a GET is answered 404, the query
    string bound [id] to a non-empty text, the table was asked once and
    served the read, it held no record under that id, and the body is
    the JSON-encoded [User {id} not found]. *)
Theorem a_404_means_no_record (event context : value) (st st' : table.state)
        (r : response) :
  GET_request event ->
  lambda_handler event context st = (Ok r, st') ->
  statusCode r = 404%Z ->
  exists queryStringParameters k,
    getitem event (lit "queryStringParameters") = Ok queryStringParameters /\
    getitem queryStringParameters (lit "id") = Ok (VStr k) /\
    k <> [] /\
    table.items st !! k = None /\
    body r = json.encode_basestring_ascii (lit "User " ++ k ++ lit " not found") /\
    st' = table.mk_state (table.items st) (tail (table.outcomes st))
                         (table.calls st ++ [table.GetItem [(lit "UserID", VStr k)]]).
Proof.
  intros Hget Hrun Hcode.
  destruct (handler_get_answer _ _ _ _ _ Hget Hrun) as [Hblock | [H500 _]];
    [|congruence].
  apply get_block_ok in Hblock as (q & k & Hq & Hid & Hk & -> & Hanswer).
  exists q, k. destruct (table.items st !! k) as [record|].
  - destruct Hanswer as [H200 _]. congruence.
  - subst r. repeat split; assumption || reflexivity.
Qed.

Lemma a_404_means_no_record_witness :
  GET_request (get_event "3") /\
  lambda_handler (get_event "3") VNone two_users
  = (Ok (mk_response 404 (json_text "'User 3 not found'")),
     table.mk_state (table.items two_users) []
                    [table.GetItem [(lit "UserID", VStr (lit "3"))]]) /\
  exists k, k <> [] /\ table.items two_users !! k = None.
Proof.
  assert (Hget : GET_request (get_event "3")) by (split; reflexivity).
  assert (Hrun : lambda_handler (get_event "3") VNone two_users
                 = (Ok (mk_response 404 (json_text "'User 3 not found'")),
                    table.mk_state (table.items two_users) []
                                   [table.GetItem [(lit "UserID", VStr (lit "3"))]]))
    by (vm_compute; reflexivity).
  split; [exact Hget|]. split; [exact Hrun|].
  destruct (a_404_means_no_record _ _ _ _ _ Hget Hrun eq_refl)
    as (q & k & _ & _ & Hk & Hnone & _).
  exists k. split; assumption.
Defined.

(** X8: a 200 to a GET is never made up.  When a GET is answered 200,
    the table held a record under the non-empty text [id] of the query
    string, and the body is the JSON text of that record. *)
Theorem a_200_means_a_record (event context : value) (st st' : table.state)
        (r : response) :
  GET_request event ->
  lambda_handler event context st = (Ok r, st') ->
  statusCode r = 200%Z ->
  exists queryStringParameters k record,
    getitem event (lit "queryStringParameters") = Ok queryStringParameters /\
    getitem queryStringParameters (lit "id") = Ok (VStr k) /\
    k <> [] /\
    table.items st !! k = Some record /\
    json.dumps (record_value record) = Ok (body r) /\
    table.items st' = table.items st.
Proof.
  intros Hget Hrun Hcode.
  destruct (handler_get_answer _ _ _ _ _ Hget Hrun) as [Hblock | [H500 _]];
    [|congruence].
  apply get_block_ok in Hblock as (q & k & Hq & Hid & Hk & -> & Hanswer).
  exists q, k. destruct (table.items st !! k) as [record|].
  - destruct Hanswer as [_ Hbody]. exists record.
    repeat split; assumption || reflexivity.
  - subst r. discriminate Hcode.
Qed.

Lemma a_200_means_a_record_witness :
  GET_request (get_event "2") /\
  lambda_handler (get_event "2") VNone two_users
  = (Ok (mk_response 200 (json_text "{'UserID': '2', 'Name': 'B'}")),
     table.mk_state (table.items two_users) []
                    [table.GetItem [(lit "UserID", VStr (lit "2"))]]) /\
  exists k record, k <> [] /\ table.items two_users !! k = Some record.
Proof.
  assert (Hget : GET_request (get_event "2")) by (split; reflexivity).
  assert (Hrun : lambda_handler (get_event "2") VNone two_users
                 = (Ok (mk_response 200 (json_text "{'UserID': '2', 'Name': 'B'}")),
                    table.mk_state (table.items two_users) []
                                   [table.GetItem [(lit "UserID", VStr (lit "2"))]]))
    by (vm_compute; reflexivity).
  split; [exact Hget|]. split; [exact Hrun|].
  destruct (a_200_means_a_record _ _ _ _ _ Hget Hrun eq_refl)
    as (q & k & record & _ & _ & Hk & Hrecord & _).
  exists k, record. split; assumption.
Defined.

(** X9: a 200 to a POST means the user is stored.  The body decoded to
    a value with a [user_id] that is a non-empty text and with a
    [name]; the record under that id is now these two attributes and
    nothing else of the body; no other record was touched; and the one
    call made is the [put_item] of the two. *)
Theorem a_200_means_stored (event context : value) (st st' : table.state) (r : response) :
  json_value event = true ->
  request_method event = Ok (VStr (lit "POST")) ->
  lambda_handler event context st = (Ok r, st') ->
  statusCode r = 200%Z ->
  exists raw decoded k name a,
    getitem event (lit "body") = Ok raw /\
    json.loads raw = Ok decoded /\
    getitem decoded (lit "user_id") = Ok (VStr k) /\
    k <> [] /\
    getitem decoded (lit "name") = Ok name /\
    table.serialize name = Ok a /\
    table.items st' !! k = Some [(lit "UserID", table.AttrS k); (lit "Name", a)] /\
    (forall k', k' <> k -> table.items st' !! k' = table.items st !! k') /\
    table.calls st'
    = table.calls st ++ [table.PutItem [(lit "UserID", VStr k); (lit "Name", name)]].
Proof.
  intros Hjson Hm Hrun Hcode.
  destruct (handler_post_answer _ _ _ _ _ Hjson Hm Hrun) as [Hblock | [H500 _]];
    [|congruence].
  apply post_block_ok in Hblock
    as (raw & decoded & k & name & a & Hraw & Hloads & Hid & Hk & Hname & Ha & _ & ->).
  exists raw, decoded, k, name, a. cbn [table.items table.calls].
  rewrite lookup_insert_eq.
  repeat split; try assumption || reflexivity.
  intros k' Hne. now rewrite lookup_insert_ne.
Qed.

Lemma a_200_means_stored_witness :
  json_value (post_event "{'user_id': '3', 'name': ['C', null], 'age': 7}") = true /\
  request_method (post_event "{'user_id': '3', 'name': ['C', null], 'age': 7}")
  = Ok (VStr (lit "POST")) /\
  exists r st',
    lambda_handler (post_event "{'user_id': '3', 'name': ['C', null], 'age': 7}") VNone
                   two_users
    = (Ok r, st') /\
    statusCode r = 200%Z /\
    exists k a,
      table.items st' !! k = Some [(lit "UserID", table.AttrS k); (lit "Name", a)] /\
      forall k', k' <> k -> table.items st' !! k' = table.items two_users !! k'.
Proof.
  split; [reflexivity|]. split; [reflexivity|].
  destruct (lambda_handler (post_event "{'user_id': '3', 'name': ['C', null], 'age': 7}")
                           VNone two_users) as [[r|e] st'] eqn:Hrun;
    [|vm_compute in Hrun; discriminate Hrun].
  assert (Hcode : statusCode r = 200%Z)
    by (vm_compute in Hrun; injection Hrun as <- _; reflexivity).
  exists r, st'. split; [reflexivity|]. split; [exact Hcode|].
  destruct (a_200_means_stored
              (post_event "{'user_id': '3', 'name': ['C', null], 'age': 7}")
              VNone two_users st' r eq_refl eq_refl Hrun Hcode)
    as (raw & decoded & k & name & a & _ & _ & _ & _ & _ & _ & Hrecord & Hothers & _).
  exists k, a. split; assumption.
Defined.

(** X10: a POST that is not answered 200 is answered 500, and then the
    items of the table are as they were, whatever went wrong: the body,
    its fields, the serialization of the item, or the service. *)
Theorem a_failed_post_stores_nothing (event context : value) (st st' : table.state)
        (r : response) :
  json_value event = true ->
  request_method event = Ok (VStr (lit "POST")) ->
  lambda_handler event context st = (Ok r, st') ->
  statusCode r <> 200%Z ->
  statusCode r = 500%Z /\ table.items st' = table.items st.
Proof.
  intros Hjson Hm Hrun Hcode.
  destruct (handler_post_answer _ _ _ _ _ Hjson Hm Hrun) as [Hblock | H500];
    [|exact H500].
  now apply post_block_returns in Hblock as [H200 _].
Qed.

(** A [user_id] that is a number: the service refuses the key. *)
Lemma a_failed_post_stores_nothing_witness :
  json_value (post_event "{'user_id': 3, 'name': 'C'}") = true /\
  request_method (post_event "{'user_id': 3, 'name': 'C'}") = Ok (VStr (lit "POST")) /\
  exists r st',
    lambda_handler (post_event "{'user_id': 3, 'name': 'C'}") VNone two_users = (Ok r, st') /\
    statusCode r = 500%Z /\ table.items st' = table.items two_users.
Proof.
  split; [reflexivity|]. split; [reflexivity|].
  destruct (lambda_handler (post_event "{'user_id': 3, 'name': 'C'}") VNone two_users)
    as [[r|e] st'] eqn:Hrun; [|vm_compute in Hrun; discriminate Hrun].
  assert (Hcode : statusCode r <> 200%Z)
    by (vm_compute in Hrun; injection Hrun as <- _; discriminate).
  exists r, st'. split; [reflexivity|].
  exact (a_failed_post_stores_nothing (post_event "{'user_id': 3, 'name': 'C'}") VNone
           two_users st' r eq_refl eq_refl Hrun Hcode).
Defined.

(** X11: status 400 is the answer to the methods other than POST and
    GET, and to them alone: no POST and no GET is answered 400,
    whatever is wrong with it. *)
Theorem status_400_is_for_other_methods (event context m : value) (st st' : table.state)
        (r : response) :
  json_value event = true ->
  request_method event = Ok m ->
  lambda_handler event context st = (Ok r, st') ->
  statusCode r = 400%Z <-> m <> VStr (lit "POST") /\ m <> VStr (lit "GET").
Proof.
  intros Hjson Hm. rewrite handler_cases, Hm.
  destruct (json.dumps event); [|discriminate].
  destruct (print _); [|discriminate].
  destruct (eq_str m (lit "POST")) eqn:Hpost.
  - apply eq_str_true in Hpost.
    destruct (post_block event st) as [[r0|e] st1] eqn:Hrun.
    + apply post_block_returns in Hrun as [H200 _]. intros [= <- _].
      split; [congruence|tauto].
    + intros [= <- _]. split; [discriminate|tauto].
  - assert (Hnot : m <> VStr (lit "POST"))
      by (intros Heq; apply eq_str_true in Heq; congruence).
    destruct (eq_str m (lit "GET")) eqn:Hget.
    + apply eq_str_true in Hget.
      destruct (get_block event st) as [[r0|e] st1] eqn:Hrun.
      * apply get_block_returns in Hrun as [[Hcode _] | [Hcode _]]; intros [= <- _];
          (split; [congruence|tauto]).
      * intros [= <- _]. split; [discriminate|tauto].
    + assert (Hnot' : m <> VStr (lit "GET"))
        by (intros Heq; apply eq_str_true in Heq; congruence).
      intros [= <- _]. split; [tauto|reflexivity].
Qed.

(** A GET without a query string is not a 400. *)
Lemma status_400_is_for_other_methods_witness :
  json_value (http_event "GET" []) = true /\
  request_method (http_event "GET" []) = Ok (VStr (lit "GET")) /\
  exists r st',
    lambda_handler (http_event "GET" []) VNone empty_table = (Ok r, st') /\
    statusCode r <> 400%Z.
Proof.
  split; [reflexivity|]. split; [reflexivity|].
  destruct (lambda_handler (http_event "GET" []) VNone empty_table)
    as [[r|e] st'] eqn:Hrun; [|vm_compute in Hrun; discriminate Hrun].
  exists r, st'. split; [reflexivity|].
  intros Hcode.
  apply (status_400_is_for_other_methods (http_event "GET" []) VNone (VStr (lit "GET"))
           empty_table st' r eq_refl eq_refl Hrun)
    in Hcode as [_ Hget].
  now apply Hget.
Defined.

(** ** Reading the answers back *)

(** [json.loads] reads back the text [json.dumps] writes for a text. *)
Lemma loads_encoded (s : str) :
  is_text s = true ->
  json.loads (VStr (json.encode_basestring_ascii s)) = Ok (VStr s).
Proof.
  intros Hs. unfold json.encode_basestring_ascii.
  set (doc := [dquote] ++ concat (map json.escape_char s) ++ [dquote]).
  change (json.loads (VStr doc)) with (json.decode doc).
  unfold json.decode.
  change (json.skip_whitespace doc) with doc.
  assert (Hfuel : exists f, Nat.add (Nat.mul 2 (length doc)) 2 = S f)
    by (exists (S (Nat.mul 2 (length doc))); lia).
  destruct Hfuel as [f ->].
  subst doc. cbn [app]. rewrite scan_once_string by assumption.
  reflexivity.
Qed.

Lemma is_text_app (a b : str) :
  is_text a = true -> is_text b = true -> is_text (a ++ b) = true.
Proof. unfold is_text. rewrite forallb_app. now intros -> ->. Qed.

(** [json.loads] reads back the JSON text of a user record. *)
Lemma loads_dumps_item (user_id name : str) :
  is_text user_id = true -> is_text name = true ->
  exists doc,
    json.dumps (VDict (user_item user_id name)) = Ok doc /\
    json.loads (VStr doc) = Ok (VDict (user_item user_id name)).
Proof.
  intros Hu Hn. eexists. split; [apply dumps_user_item|].
  set (tail := concat (map json.escape_char name) ++ [dquote; 125]).
  set (second := dquote :: concat (map json.escape_char (lit "Name"))
                   ++ dquote :: 58 :: 32 :: dquote :: tail).
  set (first := dquote :: concat (map json.escape_char (lit "UserID"))
                  ++ dquote :: 58 :: 32 :: dquote
                  :: concat (map json.escape_char user_id)
                  ++ dquote :: 44 :: 32 :: second).
  assert (Hdoc : json_text "{'UserID': " ++ json.encode_basestring_ascii user_id
                 ++ json_text ", 'Name': " ++ json.encode_basestring_ascii name ++ lit "}"
                 = 123 :: first).
  { unfold json.encode_basestring_ascii. subst first second tail.
    generalize (concat (map json.escape_char user_id)) (concat (map json.escape_char name)).
    intros x y. rewrite <- !app_assoc. reflexivity. }
  rewrite Hdoc.
  change (json.loads (VStr (123 :: first))) with (json.decode (123 :: first)).
  unfold json.decode. cbn [json.skip_whitespace json.is_whitespace N.eqb Pos.eqb orb].
  assert (Hfuel : exists f, Nat.add (Nat.mul 2 (length (123 :: first))) 2 = S (S (S (S f))))
    by (exists (Nat.mul 2 (length first)); cbn [length]; lia).
  destruct Hfuel as [f ->].
  change (json.scan_once (S (S (S (S f)))) (123 :: first))
    with (json.parse_object (S (S (S f))) [] first).
  subst first. rewrite parse_object_member by (assumption || reflexivity).
  change (json.parse_object (S (S f)) (dict_set [] (lit "UserID") (VStr user_id))
            (json.skip_whitespace (32 :: second)))
    with (json.parse_object (S (S f)) [(lit "UserID", VStr user_id)] second).
  subst second tail. cbn [ord N_of_ascii N_of_digits N.eqb Pos.eqb N.add N.mul].
  rewrite parse_object_member by (assumption || reflexivity).
  reflexivity.
Qed.

(** X12: the message of a saved user reads back: when the [name] of a
    POST is a text and the answer is 200, [json.loads] of the body is
    the [str] [User {name} saved successfully], character for character,
    whatever quotes, control characters or characters beyond ASCII the
    name has. *)
Theorem saved_message_reads_back (event context : value) (user_id name : str)
        (st st' : table.state) (r : response) :
  POST_user event user_id name ->
  is_text name = true ->
  lambda_handler event context st = (Ok r, st') ->
  statusCode r = 200%Z ->
  json.loads (VStr (body r)) = Ok (VStr (lit "User " ++ name ++ lit " saved successfully")).
Proof.
  intros (raw & Hpost & decoded & Hloads & Huid & Hname) Htext.
  rewrite (handler_post _ _ _ _ Hpost).
  destruct Hpost as (_ & _ & Hraw). rewrite (post_block_run _ _ _ Hraw).
  rewrite Hloads, Huid, Hname.
  destruct (table.put_item _ st) as [[written|e] st1]; intros [= <- _]; [|discriminate].
  intros _. cbn [body]. change (py_str (VStr name)) with name.
  apply loads_encoded. apply is_text_app; [reflexivity|].
  apply is_text_app; [exact Htext|reflexivity].
Qed.

(** A name with a quote, a line break and a character beyond the BMP. *)
Lemma saved_message_reads_back_witness :
  POST_user (post_event "{'user_id': '1', 'name': 'A\'\n\ud83d\ude00'}")
            (lit "1") [65; 34; 10; 128512] /\
  is_text [65; 34; 10; 128512] = true /\
  exists r st',
    lambda_handler (post_event "{'user_id': '1', 'name': 'A\'\n\ud83d\ude00'}") VNone
                   empty_table = (Ok r, st') /\
    statusCode r = 200%Z /\
    json.loads (VStr (body r))
    = Ok (VStr (lit "User " ++ [65; 34; 10; 128512] ++ lit " saved successfully")).
Proof.
  assert (Hpost : POST_user (post_event "{'user_id': '1', 'name': 'A\'\n\ud83d\ude00'}")
                            (lit "1") [65; 34; 10; 128512]).
  { eexists. split; [repeat split; reflexivity|].
    eexists. split; [vm_compute; reflexivity|]. split; reflexivity. }
  split; [exact Hpost|]. split; [reflexivity|].
  destruct (lambda_handler (post_event "{'user_id': '1', 'name': 'A\'\n\ud83d\ude00'}")
                           VNone empty_table) as [[r|e] st'] eqn:Hrun;
    [|vm_compute in Hrun; discriminate Hrun].
  assert (Hcode : statusCode r = 200%Z)
    by (vm_compute in Hrun; injection Hrun as <- _; reflexivity).
  exists r, st'. split; [reflexivity|]. split; [exact Hcode|].
  exact (saved_message_reads_back _ VNone _ _ empty_table st' r Hpost eq_refl Hrun Hcode).
Defined.

(** X13: a saved user reads back.  For texts [user_id] (not empty) and
    [name], behind a service that serves both calls, the body of the GET
    that follows the POST decodes, by [json.loads], to the object with
    [UserID = user_id] and [Name = name] and nothing else: escaping and
    unescaping lose nothing on the way through the table. *)
Theorem a_saved_user_reads_back (post get context : value) (user_id name : str)
        (st : table.state) :
  user_id <> [] ->
  is_text user_id = true ->
  is_text name = true ->
  serves 2 st ->
  POST_user post user_id name ->
  GET_user get (VStr user_id) ->
  exists found st2,
    lambda_handler get context (lambda_handler post context st).2 = (Ok found, st2) /\
    statusCode found = 200%Z /\
    json.loads (VStr (body found)) = Ok (VDict (user_item user_id name)).
Proof.
  intros Hid Hu Hn Hserved Hpost Hget.
  rewrite (post_user_served 1 _ _ _ _ _ Hid Hserved Hpost). cbn [snd].
  rewrite (get_user_served_response 0 _ _ _ _ Hid) by
    (try exact Hget; destruct st; exact (serves_tail 1 _ _ _ _ _ Hserved)).
  cbn [table.items]. rewrite lookup_insert_eq, record_value_user.
  destruct (loads_dumps_item user_id name Hu Hn) as (doc & -> & Hloads).
  do 2 eexists. split; [reflexivity|]. split; [reflexivity|exact Hloads].
Qed.

Lemma a_saved_user_reads_back_witness :
  lit "u-7" <> [] /\
  is_text (lit "u-7") = true /\
  is_text (lit "Zo" ++ [235]) = true /\
  serves 2 two_users /\
  POST_user (post_event "{'user_id': 'u-7', 'name': 'Zo\u00eb'}") (lit "u-7") (lit "Zo" ++ [235]) /\
  GET_user (get_event "u-7") (VStr (lit "u-7")) /\
  exists found st2,
    lambda_handler (get_event "u-7") VNone
      (lambda_handler (post_event "{'user_id': 'u-7', 'name': 'Zo\u00eb'}") VNone two_users).2
    = (Ok found, st2) /\
    statusCode found = 200%Z /\
    json.loads (VStr (body found)) = Ok (VDict (user_item (lit "u-7") (lit "Zo" ++ [235]))).
Proof.
  assert (Hid : lit "u-7" <> []) by discriminate.
  assert (Hserved : serves 2 two_users) by constructor.
  assert (Hpost : POST_user (post_event "{'user_id': 'u-7', 'name': 'Zo\u00eb'}")
                            (lit "u-7") (lit "Zo" ++ [235])).
  { eexists. split; [repeat split; reflexivity|].
    eexists. split; [vm_compute; reflexivity|]. split; reflexivity. }
  assert (Hget : GET_user (get_event "u-7") (VStr (lit "u-7"))).
  { split; [split; reflexivity|]. eexists. split; reflexivity. }
  split; [exact Hid|]. split; [reflexivity|]. split; [reflexivity|].
  repeat (split; [assumption|]).
  exact (a_saved_user_reads_back _ _ VNone (lit "u-7") (lit "Zo" ++ [235]) _
           Hid eq_refl eq_refl Hserved Hpost Hget).
Defined.

(** ** One request after another *)

(** X14: writes for two users do not interfere: behind a service that
    serves both calls, the POSTs of two users with different ids leave
    the same items in either order. *)
Theorem posts_for_two_users_commute (one two context : value) (u1 n1 u2 n2 : str)
        (st : table.state) :
  u1 <> [] -> u2 <> [] -> u1 <> u2 ->
  serves 2 st ->
  POST_user one u1 n1 ->
  POST_user two u2 n2 ->
  table.items (lambda_handler two context (lambda_handler one context st).2).2
  = table.items (lambda_handler one context (lambda_handler two context st).2).2.
Proof.
  intros H1 H2 Hne Hserved Hone Htwo.
  rewrite (post_user_served 1 _ _ _ _ _ H1 Hserved Hone).
  rewrite (post_user_served 1 _ _ _ _ _ H2 Hserved Htwo). cbn [snd].
  rewrite (post_user_served 0 _ _ _ _ _ H2) by
    (try exact Htwo; destruct st; exact (serves_tail 1 _ _ _ _ _ Hserved)).
  rewrite (post_user_served 0 _ _ _ _ _ H1) by
    (try exact Hone; destruct st; exact (serves_tail 1 _ _ _ _ _ Hserved)).
  cbn [snd table.items]. now apply insert_insert_ne.
Qed.

Lemma posts_for_two_users_commute_witness :
  lit "1" <> [] /\ lit "2" <> [] /\ lit "1" <> lit "2" /\
  serves 2 empty_table /\
  POST_user (post_event "{'user_id': '1', 'name': 'A'}") (lit "1") (lit "A") /\
  POST_user (post_event "{'user_id': '2', 'name': 'B'}") (lit "2") (lit "B") /\
  table.items
    (lambda_handler (post_event "{'user_id': '2', 'name': 'B'}") VNone
       (lambda_handler (post_event "{'user_id': '1', 'name': 'A'}") VNone empty_table).2).2
  = table.items
      (lambda_handler (post_event "{'user_id': '1', 'name': 'A'}") VNone
         (lambda_handler (post_event "{'user_id': '2', 'name': 'B'}") VNone empty_table).2).2.
Proof.
  assert (H1 : lit "1" <> []) by discriminate.
  assert (H2 : lit "2" <> []) by discriminate.
  assert (Hne : lit "1" <> lit "2") by discriminate.
  assert (Hserved : serves 2 empty_table) by constructor.
  assert (HA : POST_user (post_event "{'user_id': '1', 'name': 'A'}") (lit "1") (lit "A")).
  { eexists. split; [repeat split; reflexivity|].
    eexists. split; [vm_compute; reflexivity|]. split; reflexivity. }
  assert (HB : POST_user (post_event "{'user_id': '2', 'name': 'B'}") (lit "2") (lit "B")).
  { eexists. split; [repeat split; reflexivity|].
    eexists. split; [vm_compute; reflexivity|]. split; reflexivity. }
  repeat (split; [assumption|]).
  exact (posts_for_two_users_commute _ _ VNone _ _ _ _ _ H1 H2 Hne Hserved HA HB).
Defined.

(** The answer of the GET block is a function of the answer of the
    table. *)
Lemma get_block_answer (event : value) (st : table.state) :
  (get_block event st).1
  = rbind (getitem event (lit "queryStringParameters")) (fun queryStringParameters =>
    rbind (getitem queryStringParameters (lit "id")) (fun user_id =>
    rbind (table.get_item [(lit "UserID", user_id)] st).1 (fun response =>
      if contains response (lit "Item") then
        rbind (rbind (getitem response (lit "Item")) json.dumps)
              (fun text => Ok (mk_response 200 text))
      else
        Ok (mk_response 404
              (json.encode_basestring_ascii
                 (lit "User " ++ py_str user_id ++ lit " not found")))))).
Proof.
  unfold get_block, bind, pure.
  destruct (getitem event _) as [q|e]; cbn [rbind]; [|reflexivity].
  destruct (getitem q _) as [user_id|e]; cbn [rbind]; [|reflexivity].
  destruct (table.get_item _ st) as [[response|e] st']; cbn [rbind fst]; [|reflexivity].
  destruct (contains response _); [|reflexivity].
  destruct (getitem response _) as [item|e]; cbn [rbind]; [|reflexivity].
  destruct (json.dumps item); reflexivity.
Qed.

(** Served, the table answers a read by its items alone. *)
Lemma get_item_served (Key : list (str * value)) (st : table.state) :
  serves 1 st ->
  (table.get_item Key st).1
  = rbind (table.serialize_attributes Key) (fun attrs =>
    rbind (table.request_key attrs) (fun k =>
      Ok (match table.items st !! k with
          | Some found =>
              VDict [(lit "Item", table.deserialize (table.AttrM found));
                     table.response_metadata]
          | None => VDict [table.response_metadata]
          end))).
Proof.
  intros Hserved. unfold table.get_item.
  destruct (table.serialize_attributes Key) as [attrs|e]; [|reflexivity].
  rewrite (next_outcome_served 0) by (destruct st; exact Hserved).
  cbn [rbind table.items table.log].
  destruct (table.request_key attrs) as [k|e]; [|reflexivity].
  cbn [rbind]. now destruct (table.items st !! k).
Qed.

Lemma serves_later (st st' : table.state) :
  serves 2 st ->
  table.outcomes st' = table.outcomes st \/ table.outcomes st' = tail (table.outcomes st) ->
  serves 1 st'.
Proof.
  unfold serves. intros Hserved [-> | ->].
  - destruct (table.outcomes st) as [|o rest]; [constructor|].
    apply Forall_cons in Hserved as [-> _]. repeat constructor.
  - destruct (table.outcomes st) as [|o rest]; [constructor|].
    now apply Forall_cons in Hserved as [_ Hrest].
Qed.

(** X15: a GET can be repeated: behind a service that serves the calls,
    the same GET sent again gets the same answer, be it the record, the
    404 or a 500. *)
Theorem get_is_repeatable (get context : value) (st : table.state) :
  GET_request get ->
  serves 2 st ->
  (lambda_handler get context (lambda_handler get context st).2).1
  = (lambda_handler get context st).1.
Proof.
  intros Hget Hserved.
  assert (Hanswer : forall st0,
             (lambda_handler get context st0).1
             = Ok (match (get_block get st0).1 with
                   | Ok r => r
                   | Raise e => error_response e
                   end) /\
             (lambda_handler get context st0).2 = (get_block get st0).2).
  { intros st0. rewrite (handler_get _ _ _ Hget).
    now destruct (get_block get st0) as [[r|e] st1]. }
  destruct (Hanswer st) as [_ ->].
  rewrite (proj1 (Hanswer st)), (proj1 (Hanswer (get_block get st).2)).
  assert (Hitems : table.items (get_block get st).2 = table.items st)
    by apply get_block_frame.
  assert (Hnow : serves 1 st) by (apply (serves_later st); [exact Hserved|now left]).
  assert (Hlater : serves 1 (get_block get st).2).
  { apply (serves_later st); [exact Hserved|].
    destruct (get_block get st) as [[r|e] st1] eqn:Hrun; cbn [snd].
    - apply get_block_ok in Hrun as (q' & k & _ & _ & _ & -> & _). now right.
    - apply get_block_raise in Hrun as (_ & [-> | (Key & _ & Houtcomes)]);
        [now left|exact Houtcomes]. }
  assert (Hsame : (get_block get (get_block get st).2).1 = (get_block get st).1).
  { rewrite !get_block_answer.
    destruct (getitem get _) as [q|e]; cbn [rbind]; [|reflexivity].
    destruct (getitem q _) as [user_id|e]; cbn [rbind]; [|reflexivity].
    now rewrite (get_item_served _ _ Hlater), (get_item_served _ _ Hnow), Hitems. }
  now rewrite Hsame.
Qed.

Lemma get_is_repeatable_witness :
  GET_request (get_event "3") /\
  serves 2 two_users /\
  (lambda_handler (get_event "3") VNone (lambda_handler (get_event "3") VNone two_users).2).1
  = (lambda_handler (get_event "3") VNone two_users).1.
Proof.
  assert (Hget : GET_request (get_event "3")) by (split; reflexivity).
  assert (Hserved : serves 2 two_users) by constructor.
  split; [exact Hget|]. split; [exact Hserved|].
  exact (get_is_repeatable _ VNone two_users Hget Hserved).
Defined.
